(** * A shallow embedding of the blog application (api/index.py, api/forms.py)

    The views of [api/index.py] are embedded as computations in a small
    state-and-exception monad over a [World]: the three tables of the
    database, the login session, the flashed messages and the
    [user_logged_in] signals emitted so far.  Python exceptions are the
    [Raise] results; Flask's dispatcher turns them into error pages.

    Conventions.
    - A Python [str] is a [string]; every [ascii] stands for one character
      (code points below 256), so [String.length] is Python's [len].
    - What the framework reads from ambient request state is an argument
      here: the submitted form, today's date and the draws of the random
      generator ([Env]).
    - The primitives of the libraries that the application only calls are
      Section variables: the PBKDF2 digest, the [URL()] validator of
      WTForms and the module constant [year]. *)

From Stdlib Require Import String Ascii List ZArith Bool Lia PeanoNat DecimalString DecimalNat.
Import ListNotations.
Open Scope string_scope.

(** ** Python strings *)

Module Str.

(** [str.isspace] on the characters below 256. *)
Definition isspace (c : ascii) : bool :=
  let n := nat_of_ascii c in
  (((9 <=? n) && (n <=? 13)) || ((28 <=? n) && (n <=? 32))
   || (n =? 133) || (n =? 160))%nat.

Fixpoint lstrip (s : string) : string :=
  match s with
  | EmptyString => EmptyString
  | String c r => if isspace c then lstrip r else s
  end.

Definition reverse (s : string) : string :=
  string_of_list_ascii (rev (list_ascii_of_string s)).

Definition rstrip (s : string) : string := reverse (lstrip (reverse s)).

Definition strip (s : string) : string := rstrip (lstrip s).

(** Truth value of a [str]: non-empty. *)
Definition truthy (s : string) : bool :=
  match s with EmptyString => false | String _ _ => true end.

(** [s.partition(sep)] for a one-character separator: the text before the
    first [sep] and the text after it, [None] when [sep] does not occur. *)
Fixpoint partition (sep : ascii) (s : string) : option (string * string) :=
  match s with
  | EmptyString => None
  | String c r =>
      if Ascii.eqb c sep then Some (EmptyString, r)
      else match partition sep r with
           | Some (a, b) => Some (String c a, b)
           | None => None
           end
  end.

(** [s.split(sep, 2)] unpacked into three names: [None] stands for the
    [ValueError] of the unpacking when fewer than three parts come out. *)
Definition split3 (sep : ascii) (s : string) : option (string * string * string) :=
  match partition sep s with
  | None => None
  | Some (a, rest) =>
      match partition sep rest with
      | None => None
      | Some (b, c) => Some (a, b, c)
      end
  end.

Fixpoint contains (c : ascii) (s : string) : bool :=
  match s with
  | EmptyString => false
  | String d r => Ascii.eqb d c || contains c r
  end.

Definition zfill (width : nat) (s : string) : string :=
  string_of_list_ascii (repeat "0"%char (width - String.length s)) ++ s.

Definition of_nat (n : nat) : string := NilEmpty.string_of_uint (Nat.to_uint n).

End Str.

(** ** datetime *)

Record datetime := { dt_year : nat; dt_month : nat; dt_day : nat }.

(** [d.strftime('%m/%d/%Y')] *)
Definition strftime_mdY (d : datetime) : string :=
  Str.zfill 2 (Str.of_nat (dt_month d)) ++ "/" ++
  Str.zfill 2 (Str.of_nat (dt_day d)) ++ "/" ++
  Str.zfill 4 (Str.of_nat (dt_year d)).

(** What a request reads from outside the program: the clock and the
    random generator ([randbelow k] is the k-th draw of the request). *)
Record Env := { today : datetime; randbelow : nat -> nat }.

(** ** werkzeug.security *)

Module Werkzeug.

Definition SALT_CHARS : string :=
  "abcdefghijklmnopqrstuvwxyzABCDEFGHIJKLMNOPQRSTUVWXYZ0123456789".

Definition DEFAULT_PBKDF2_ITERATIONS : string := "600000".

(** [secrets.choice(seq)], the k-th draw of the request. *)
Definition choice (env : Env) (k : nat) (seq : string) : ascii :=
  nth (randbelow env k mod String.length seq) (list_ascii_of_string seq) "a"%char.

(** [gen_salt(length)]: [length] characters drawn from [SALT_CHARS]. *)
Definition gen_salt (env : Env) (length : nat) : string :=
  string_of_list_ascii (map (fun k => choice env k SALT_CHARS) (seq 0 length)).

Section Hashing.

(** [pbkdf2_hex method salt password]: the hexadecimal PBKDF2-HMAC digest,
    [method] being the full method string with hash name and iteration
    count.  The digest itself is not modelled. *)
Variable pbkdf2_hex : string -> string -> string -> string.

(** [_hash_internal(method, salt, password)] for the pbkdf2 family: returns
    the digest and the actual method, which spells out the iteration count
    when the caller left it out.  The method string is otherwise handed to
    the digest as it is. *)
Definition _hash_internal (method salt password : string) : string * string :=
  let actual_method :=
    if String.eqb method "pbkdf2:sha256"
    then "pbkdf2:sha256:" ++ DEFAULT_PBKDF2_ITERATIONS
    else method in
  (pbkdf2_hex actual_method salt password, actual_method).

(** [generate_password_hash(password, method, salt_length)] *)
Definition generate_password_hash
  (env : Env) (password method : string) (salt_length : nat) : string :=
  let salt := gen_salt env salt_length in
  let '(h, actual_method) := _hash_internal method salt password in
  actual_method ++ "$" ++ salt ++ "$" ++ h.

(** [check_password_hash(pwhash, password)] *)
Definition check_password_hash (pwhash password : string) : bool :=
  match Str.split3 "$" pwhash with
  | None => false
  | Some (method, salt, hashval) =>
      String.eqb (fst (_hash_internal method salt password)) hashval
  end.

End Hashing.

End Werkzeug.

(** ** wtforms.validators *)

Module Validators.

(** [DataRequired()]: the data is truthy and, being a string, not blank. *)
Definition DataRequired (data : string) : bool :=
  Str.truthy data && Str.truthy (Str.strip data).

(** [Length(min, max)] *)
Definition Length (min max : nat) (data : string) : bool :=
  let length := if Str.truthy data then String.length data else 0 in
  ((min <=? length) && (length <=? max))%nat.

(** The pre-validation of a [SelectField]: the data is one of the choices. *)
Definition valid_choice (choices : list string) (data : string) : bool :=
  existsb (String.eqb data) choices.

(** A field is valid when every validator of its chain accepts the data. *)
Definition run_validation_chain (validators : list (string -> bool)) (data : string) : bool :=
  forallb (fun v => v data) validators.

End Validators.

(** ** api/forms.py *)

(** What every [FlaskForm] takes from the request: whether the request
    submits a form at all (POST) and whether its CSRF token checks. *)
Record FormMeta := { is_submitted : bool; csrf_valid : bool }.

Module RegisterForm.

Record t := { meta : FormMeta; name : string; email : string; password : string }.

Definition name_validators : list (string -> bool) := [Validators.DataRequired].
Definition email_validators : list (string -> bool) := [Validators.DataRequired].
Definition password_validators : list (string -> bool) :=
  [Validators.DataRequired; Validators.Length 7 25].

Definition validate (f : t) : bool :=
  csrf_valid (meta f)
  && Validators.run_validation_chain name_validators (name f)
  && Validators.run_validation_chain email_validators (email f)
  && Validators.run_validation_chain password_validators (password f).

Definition validate_on_submit (f : t) : bool :=
  is_submitted (meta f) && validate f.

End RegisterForm.

Module LoginForm.

Record t := { meta : FormMeta; email : string; password : string }.

Definition email_validators : list (string -> bool) := [Validators.DataRequired].
Definition password_validators : list (string -> bool) := [Validators.DataRequired].

Definition validate (f : t) : bool :=
  csrf_valid (meta f)
  && Validators.run_validation_chain email_validators (email f)
  && Validators.run_validation_chain password_validators (password f).

Definition validate_on_submit (f : t) : bool :=
  is_submitted (meta f) && validate f.

End LoginForm.

Module CreatePostForm.

Record t := {
  meta : FormMeta;
  title : string;
  subtitle : string;
  genre : string;
  img_url : string;
  body : string
}.

Definition genre_choices : list string :=
  ["Tech"; "Education"; "Entertainment"; "Random Thoughts"].

Section Validation.

(** The [URL()] validator of WTForms. *)
Variable URL : string -> bool.

Definition title_validators : list (string -> bool) := [Validators.DataRequired].
Definition subtitle_validators : list (string -> bool) := [Validators.DataRequired].
Definition genre_validators : list (string -> bool) := [Validators.DataRequired].
Definition img_url_validators : list (string -> bool) := [Validators.DataRequired; URL].
Definition body_validators : list (string -> bool) := [Validators.DataRequired].

Definition validate (f : t) : bool :=
  csrf_valid (meta f)
  && Validators.run_validation_chain title_validators (title f)
  && Validators.run_validation_chain subtitle_validators (subtitle f)
  && (Validators.valid_choice genre_choices (genre f)
      && Validators.run_validation_chain genre_validators (genre f))
  && Validators.run_validation_chain img_url_validators (img_url f)
  && Validators.run_validation_chain body_validators (body f).

Definition validate_on_submit (f : t) : bool :=
  is_submitted (meta f) && validate f.

End Validation.

End CreatePostForm.

(** ** The tables of api/index.py *)

Module User.
Record t := { id : Z; name : string; email : string; password : string }.
End User.

Module BlogPost.
Record t := {
  id : Z;
  title : string;
  subtitle : string;
  date : string;
  body : string;
  img_url : string;
  author_id : option Z;
  genre : string
}.
End BlogPost.

Module Comment.
Record t := {
  id : Z;
  text : string;
  author_id : option Z;
  post_id : option Z
}.

Definition orphan (c : t) : t :=
  {| id := id c; text := text c; author_id := author_id c; post_id := None |}.
End Comment.

(** The database: each table in insertion order. *)
Record Database := {
  users : list User.t;
  blog_posts : list BlogPost.t;
  comments : list Comment.t
}.

(** The state a request runs in.  [session_user_id] is the user id that
    flask_login keeps in the session, [flashes] the messages queued by
    [flash], [user_logged_in] the ids for which [login_user] has sent its
    signal, oldest first. *)
Record World := {
  db : Database;
  session_user_id : option Z;
  flashes : list string;
  user_logged_in : list Z
}.

(** ** Results, exceptions and the monad of views *)

Inductive Exn :=
| AttributeError
| KeyError (key : string)
| UnmappedInstanceError
| IntegrityError
| HTTPException (code : Z).

Inductive Result (A : Type) :=
| Ok (a : A)
| Raise (e : Exn).
Arguments Ok {A} a.
Arguments Raise {A} e.

Definition M (A : Type) : Type := World -> Result A * World.

Definition ret {A} (a : A) : M A := fun w => (Ok a, w).

Definition raise {A} (e : Exn) : M A := fun w => (Raise e, w).

Definition bind {A B} (m : M A) (k : A -> M B) : M B :=
  fun w =>
    match m w with
    | (Ok a, w') => k a w'
    | (Raise e, w') => (Raise e, w')
    end.

Notation "x <- m ;; k" := (bind m (fun x => k))
  (at level 61, m at next level, right associativity).
Notation "m ;;; k" := (bind m (fun _ => k))
  (at level 61, right associativity).

(** [try: body  except AttributeError: handler] *)
Definition try_except_AttributeError {A} (body handler : M A) : M A :=
  fun w =>
    match body w with
    | (Raise AttributeError, w') => handler w'
    | r => r
    end.

(** ** The database session *)

(** The integer primary key the store gives the next row of a table: one
    more than the largest key in use, 1 for an empty table, as the default
    SQLite store does.  The properties below only use that the key is not
    in use. *)
Definition next_id (ids : list Z) : Z := fold_right Z.max 0%Z ids + 1.

Definition User_query_get (user_id : Z) : M (option User.t) :=
  fun w => (Ok (find (fun u => Z.eqb (User.id u) user_id) (users (db w))), w).

(** [User.query.filter_by(email=email).first()] *)
Definition User_query_filter_by_email_first (email : string) : M (option User.t) :=
  fun w => (Ok (find (fun u => String.eqb (User.email u) email) (users (db w))), w).

Definition BlogPost_query_get (post_id : Z) : M (option BlogPost.t) :=
  fun w => (Ok (find (fun p => Z.eqb (BlogPost.id p) post_id) (blog_posts (db w))), w).

(** [BlogPost.query.filter_by(genre=category)] *)
Definition BlogPost_query_filter_by_genre (category : string) : M (list BlogPost.t) :=
  fun w => (Ok (filter (fun p => String.eqb (BlogPost.genre p) category) (blog_posts (db w))), w).

Definition set_db (d : Database) (w : World) : World :=
  {| db := d; session_user_id := session_user_id w;
     flashes := flashes w; user_logged_in := user_logged_in w |}.

(** [db.session.add(new_user); db.session.commit()] for a new [User]: the
    row gets its id and is appended; the persisted object is returned, as
    the Python object is refreshed with its id. *)
Definition db_session_add_commit_user (name email password : string) : M User.t :=
  fun w =>
    let row := {| User.id := next_id (map User.id (users (db w)));
                  User.name := name; User.email := email;
                  User.password := password |} in
    (Ok row,
     set_db {| users := users (db w) ++ [row];
               blog_posts := blog_posts (db w);
               comments := comments (db w) |} w).

(** [db.session.add(post); db.session.commit()] for a new [BlogPost].  The
    column [title] is declared [unique=True]: a row whose title is in the
    table already is refused at commit with an [IntegrityError] and the
    transaction is rolled back. *)
Definition db_session_add_commit_post
  (title subtitle genre img_url body date : string) : M BlogPost.t :=
  fun w =>
    if existsb (fun p => String.eqb (BlogPost.title p) title) (blog_posts (db w))
    then (Raise IntegrityError, w)
    else
      let row := {| BlogPost.id := next_id (map BlogPost.id (blog_posts (db w)));
                    BlogPost.title := title; BlogPost.subtitle := subtitle;
                    BlogPost.date := date; BlogPost.body := body;
                    BlogPost.img_url := img_url; BlogPost.author_id := None;
                    BlogPost.genre := genre |} in
      (Ok row,
       set_db {| users := users (db w);
                 blog_posts := blog_posts (db w) ++ [row];
                 comments := comments (db w) |} w).

(** [db.session.delete(instance)]: [None] is not a mapped instance. *)
Definition db_session_delete_commit_post (instance : option BlogPost.t) : M unit :=
  fun w =>
    match instance with
    | None => (Raise UnmappedInstanceError, w)
    | Some p =>
        (Ok tt,
         set_db {| users := users (db w);
                   blog_posts :=
                     filter (fun q => negb (Z.eqb (BlogPost.id q) (BlogPost.id p)))
                            (blog_posts (db w));
                   comments :=
                     map (fun c =>
                            match Comment.post_id c with
                            | Some i => if Z.eqb i (BlogPost.id p) then Comment.orphan c else c
                            | None => c
                            end) (comments (db w)) |} w)
    end.

(** ** flask and flask_login *)

Inductive Identity :=
| AnonymousUserMixin
| Authenticated (u : User.t).

(** [load_user] *)
Definition load_user (user_id : Z) : M (option User.t) := User_query_get user_id.

(** [current_user]: the user of the session id as [load_user] finds it,
    the anonymous user when there is no id or no such user. *)
Definition current_user : M Identity :=
  fun w =>
    match session_user_id w with
    | None => (Ok AnonymousUserMixin, w)
    | Some uid =>
        match load_user uid w with
        | (Ok (Some u), w') => (Ok (Authenticated u), w')
        | (Ok None, w') => (Ok AnonymousUserMixin, w')
        | (Raise e, w') => (Raise e, w')
        end
    end.

(** [current_user.id]: the anonymous user has no such attribute. *)
Definition current_user_id : M Z :=
  i <- current_user ;;
  match i with
  | AnonymousUserMixin => raise AttributeError
  | Authenticated u => ret (User.id u)
  end.

(** [current_user.is_authenticated] *)
Definition current_user_is_authenticated : M bool :=
  i <- current_user ;;
  match i with
  | AnonymousUserMixin => ret false
  | Authenticated _ => ret true
  end.

Definition login_user (u : User.t) : M unit :=
  fun w =>
    (Ok tt,
     {| db := db w; session_user_id := Some (User.id u);
        flashes := flashes w;
        user_logged_in := user_logged_in w ++ [User.id u] |}).

Definition logout_user : M unit :=
  fun w =>
    (Ok tt,
     {| db := db w; session_user_id := None;
        flashes := flashes w; user_logged_in := user_logged_in w |}).

Definition flash (message : string) : M unit :=
  fun w =>
    (Ok tt,
     {| db := db w; session_user_id := session_user_id w;
        flashes := flashes w ++ [message];
        user_logged_in := user_logged_in w |}).

Definition abort {A} (code : Z) : M A := raise (HTTPException code).

(** The values a view hands to a template. *)
Inductive Value :=
| VInt (z : Z)
| VBool (b : bool)
| VStr (s : string)
| VUser (i : Identity)
| VPost (p : option BlogPost.t)
| VPosts (ps : list BlogPost.t)
| VRegisterForm (f : RegisterForm.t)
| VLoginForm (f : LoginForm.t)
| VCreatePostForm (f : CreatePostForm.t).

Inductive Response :=
| Redirect (endpoint : string)
| RenderTemplate (template : string) (context : list (string * Value)).

Definition redirect (endpoint : string) : M Response := ret (Redirect endpoint).

Definition render_template (template : string) (context : list (string * Value)) : M Response :=
  ret (RenderTemplate template context).

(** What the client gets.  Flask answers an [HTTPException] with the page
    of its status code and any other exception that leaves a view with the
    page of an internal server error. *)
Inductive HttpResponse :=
| Page (template : string) (context : list (string * Value))
| Found (endpoint : string)
| ErrorPage (status : Z).

Definition full_dispatch_request (view : M Response) (w : World) : HttpResponse * World :=
  match view w with
  | (Ok (RenderTemplate t c), w') => (Page t c, w')
  | (Ok (Redirect e), w') => (Found e, w')
  | (Raise (HTTPException code), w') => (ErrorPage code, w')
  | (Raise _, w') => (ErrorPage 500, w')
  end.

(** ** api/index.py: the admin decorator *)

(** [admin_only(function)]: the wrapper that replaces [function]. *)
Definition admin_only {A} (function : A -> M Response) : A -> M Response :=
  fun args =>
    try_except_AttributeError
      (uid <- current_user_id ;;
       if Z.eqb uid 1 then function args else abort 403)
      (abort 403).

(** ** Sample data

    Concrete stand-ins for the library primitives, and small worlds and
    forms on which the views are run below. *)

Module Sample.

Definition pbkdf2_hex (method salt password : string) : string :=
  method ++ "|" ++ salt ++ "|" ++ password.

Definition URL (data : string) : bool := String.prefix "https://" data.

Definition year : Z := 2024.

Definition env_a : Env :=
  {| today := {| dt_year := 2023; dt_month := 3; dt_day := 9 |};
     randbelow := fun k => 7 * k |}.


Definition posted : FormMeta := {| is_submitted := true; csrf_valid := true |}.

Definition ann : User.t :=
  {| User.id := 1; User.name := "Ann"; User.email := "a@x.com";
     User.password :=
       "pbkdf2:sha256:600000$ahovCJQX$pbkdf2:sha256:600000|ahovCJQX|secret12" |}.

Definition bob : User.t :=
  {| User.id := 2; User.name := "Bob"; User.email := "b@x.com";
     User.password :=
       "pbkdf2:sha256:600000$bglqvAFK$pbkdf2:sha256:600000|bglqvAFK|hunter2222" |}.

Definition hello : BlogPost.t :=
  {| BlogPost.id := 1; BlogPost.title := "Hello"; BlogPost.subtitle := "First";
     BlogPost.date := "03/09/2023"; BlogPost.body := "<p>Hi</p>";
     BlogPost.img_url := "https://example.com/a.png";
     BlogPost.author_id := None; BlogPost.genre := "Tech" |}.

Definition world (us : list User.t) (ps : list BlogPost.t) (sid : option Z) : World :=
  {| db := {| users := us; blog_posts := ps; comments := [] |};
     session_user_id := sid; flashes := []; user_logged_in := [] |}.

(** Nobody registered, nobody logged in. *)
Definition empty_world : World := world [] [] None.

(** Ann and Bob registered, nobody logged in. *)
Definition registered_world : World := world [ann; bob] [] None.

(** Ann and Bob registered; Ann, the first user, is logged in. *)
Definition admin_world : World := world [ann; bob] [] (Some 1%Z).

(** As [admin_world], with the post "Hello" stored. *)
Definition admin_world_hello : World := world [ann; bob] [hello] (Some 1%Z).

(** Bob, the second user, is logged in. *)
Definition bob_world : World := world [ann; bob] [hello] (Some 2%Z).

Definition register_carl : RegisterForm.t :=
  {| RegisterForm.meta := posted; RegisterForm.name := "Carl";
     RegisterForm.email := "c@x.com"; RegisterForm.password := "opensesame" |}.

(** A registration that reuses Ann's email, with a valid password. *)
Definition register_dup : RegisterForm.t :=
  {| RegisterForm.meta := posted; RegisterForm.name := "Ann again";
     RegisterForm.email := "a@x.com"; RegisterForm.password := "opensesame" |}.

(** A registration that reuses Ann's email, with a password of 5 characters. *)
Definition register_dup_short : RegisterForm.t :=
  {| RegisterForm.meta := posted; RegisterForm.name := "Ann again";
     RegisterForm.email := "a@x.com"; RegisterForm.password := "short" |}.

Definition login_ann : LoginForm.t :=
  {| LoginForm.meta := posted; LoginForm.email := "a@x.com";
     LoginForm.password := "secret12" |}.

Definition login_ann_wrong : LoginForm.t :=
  {| LoginForm.meta := posted; LoginForm.email := "a@x.com";
     LoginForm.password := "secret13" |}.

(** A login for Ann's email, the password field left empty. *)
Definition login_ann_blank : LoginForm.t :=
  {| LoginForm.meta := posted; LoginForm.email := "a@x.com";
     LoginForm.password := "" |}.

Definition post_hello : CreatePostForm.t :=
  {| CreatePostForm.meta := posted; CreatePostForm.title := "Hello";
     CreatePostForm.subtitle := "Again"; CreatePostForm.genre := "Education";
     CreatePostForm.img_url := "https://example.com/b.png";
     CreatePostForm.body := "<p>Hi again</p>" |}.

(** Carl as the first user of a fresh database, registered with
    [register_carl] under the draws of [env_a]. *)
Definition carl_first : User.t :=
  {| User.id := 1; User.name := "Carl"; User.email := "c@x.com";
     User.password :=
       "pbkdf2:sha256:600000$ahovCJQX$pbkdf2:sha256:600000|ahovCJQX|opensesame" |}.

(** A login for an email nobody has. *)
Definition login_dave : LoginForm.t :=
  {| LoginForm.meta := posted; LoginForm.email := "d@x.com";
     LoginForm.password := "whatever1" |}.

(** The new-post page fetched with GET: nothing submitted. *)
Definition post_form_get : CreatePostForm.t :=
  {| CreatePostForm.meta := {| is_submitted := false; csrf_valid := false |};
     CreatePostForm.title := ""; CreatePostForm.subtitle := "";
     CreatePostForm.genre := ""; CreatePostForm.img_url := "";
     CreatePostForm.body := "" |}.

Definition new_year_eve : datetime :=
  {| dt_year := 2022; dt_month := 12; dt_day := 31 |}.



End Sample.

(** ** api/index.py: the views *)

Section Views.

Variable pbkdf2_hex : string -> string -> string -> string.
Variable URL : string -> bool.

(** The module constant [year = datetime.now().year]. *)
Variable year : Z.

Definition generate_password_hash := Werkzeug.generate_password_hash pbkdf2_hex.
Definition check_password_hash := Werkzeug.check_password_hash pbkdf2_hex.

Definition email_registered_message : string :=
  "This email is already registered in our database. Try logging in instead.".

Definition register (env : Env) (form : RegisterForm.t) : M Response :=
  if RegisterForm.validate_on_submit form then
    existing <- User_query_filter_by_email_first (RegisterForm.email form) ;;
    match existing with
    | None =>
        new_user <- db_session_add_commit_user
                      (RegisterForm.name form)
                      (RegisterForm.email form)
                      (generate_password_hash env (RegisterForm.password form)
                                              "pbkdf2:sha256" 8) ;;
        login_user new_user ;;;
        redirect "home"
    | Some _ =>
        flash email_registered_message ;;;
        redirect "login"
    end
  else
    logged_in <- current_user_is_authenticated ;;
    user <- current_user ;;
    render_template "register.html"
      [("year", VInt year); ("form", VRegisterForm form);
       ("logged_in", VBool logged_in); ("user", VUser user)].

Definition login (form : LoginForm.t) : M Response :=
  let page := render_template "login.html"
                [("year", VInt year); ("form", VLoginForm form)] in
  if LoginForm.validate_on_submit form then
    user <- User_query_filter_by_email_first (LoginForm.email form) ;;
    match user with
    | Some u =>
        if check_password_hash (User.password u) (LoginForm.password form)
        then login_user u ;;; redirect "home"
        else flash "Incorrect password. Try again" ;;; page
    | None =>
        flash "There is no account for that user" ;;; page
    end
  else page.

Definition logout : M Response :=
  logout_user ;;; redirect "home".

(** The body of [new_post], before decoration. *)
Definition new_post_view (env : Env) (form : CreatePostForm.t) : M Response :=
  if CreatePostForm.validate_on_submit URL form then
    db_session_add_commit_post
      (CreatePostForm.title form)
      (CreatePostForm.subtitle form)
      (CreatePostForm.genre form)
      (CreatePostForm.img_url form)
      (CreatePostForm.body form)
      (strftime_mdY (today env)) ;;;
    redirect "home"
  else
    logged_in <- current_user_is_authenticated ;;
    render_template "make-post.html"
      [("form", VCreatePostForm form); ("year", VInt year);
       ("logged_in", VBool logged_in)].

Definition new_post (env : Env) (form : CreatePostForm.t) : M Response :=
  admin_only (fun _ : unit => new_post_view env form) tt.

(** The body of [delete_post], before decoration. *)
Definition delete_post_view (post_id : Z) : M Response :=
  post_to_delete <- BlogPost_query_get post_id ;;
  db_session_delete_commit_post post_to_delete ;;;
  redirect "home".

Definition delete_post : Z -> M Response := admin_only delete_post_view.

Definition show_post (post_id : Z) : M Response :=
  requested_post <- BlogPost_query_get post_id ;;
  render_template "post.html"
    [("post", VPost requested_post); ("year", VInt year)].

Definition category_pics : list (string * string) :=
  [("Random Thoughts",
    "https://images.unsplash.com/photo-1495567720989-cebdbdd97913?ixlib=rb-4.0.3&ixid=MnwxMjA3f"
    ++ "DB8MHxwaG90by1wYWdlfHx8fGVufDB8fHx8&auto=format&fit=crop&w=2070&q=80");
   ("Entertainment",
    "https://images.unsplash.com/photo-1513346940221-6f673d962e97?ixlib=rb-4.0.3&"
    ++ "ixid=MnwxMjA3fDB8MHxwaG90by1wYWdlfHx8fGVufDB8fHx8&auto=format&fit=crop&w=2070&q=80");
   ("Technology",
    "https://images.unsplash.com/photo-1526374965328-7f61d4dc18c5?ixlib=rb-4.0.3&ixid=MnwxMjA3fDB8MH"
    ++ "xzZWFyY2h8MTV8fHRlY2h8ZW58MHwwfDB8fA%3D%3D&auto=format&fit=crop&w=800&q=60");
   ("Education",
    "https://images.unsplash.com/photo-1521587760476-6c12a4b040da?ixlib=rb-4.0.3&ixid=MnwxMjA3fDB8MH"
    ++ "xwaG90by1wYWdlfHx8fGVufDB8fHx8&auto=format&fit=crop&w=2070&q=80")].

(** [d[key]] on a dict written as its items. *)
Fixpoint getitem (d : list (string * string)) (key : string) : option string :=
  match d with
  | [] => None
  | (k, v) :: rest => if String.eqb k key then Some v else getitem rest key
  end.

Definition post_category (category : string) : M Response :=
  posts <- BlogPost_query_filter_by_genre category ;;
  let category_name := if String.eqb category "Tech" then "Technology" else category in
  user <- current_user ;;
  match getitem category_pics category_name with
  | None => raise (KeyError category_name)
  | Some filepath =>
      render_template "post_category.html"
        [("posts", VPosts posts); ("category", VStr category_name);
         ("user", VUser user); ("filepath", VStr filepath);
         ("year", VInt year)]
  end.

(** ** Notions the properties are stated with *)

(** The identity of the request, as [current_user] resolves it. *)
Definition identity (w : World) : Identity :=
  match session_user_id w with
  | None => AnonymousUserMixin
  | Some uid =>
      match find (fun u => Z.eqb (User.id u) uid) (users (db w)) with
      | Some u => Authenticated u
      | None => AnonymousUserMixin
      end
  end.

(** Some stored user has this email. *)
Definition email_taken (email : string) (w : World) : Prop :=
  exists u, In u (users (db w)) /\ User.email u = email.

(** Some stored post has this title. *)
Definition title_taken (title : string) (w : World) : Prop :=
  exists p, In p (blog_posts (db w)) /\ BlogPost.title p = title.

(** A stored user has the email and the password verifies against the
    credential stored for it. *)
Definition credential_verified (email password : string) (w : World) : bool :=
  match find (fun u => String.eqb (User.email u) email) (users (db w)) with
  | Some u => check_password_hash (User.password u) password
  | None => false
  end.

(** Between [w] and [w'] a session was started: [login_user] ran. *)
Definition session_started (w w' : World) : Prop :=
  user_logged_in w' <> user_logged_in w.

(** Between [w] and [w'] a message was flashed. *)
Definition flash_shown (w w' : World) : Prop :=
  exists message, flashes w' = (flashes w ++ [message])%list.

(** The login property for one submission: a session is started exactly
    when the credential verifies, and otherwise a message is flashed. *)
Definition login_sessions_follow_verification (form : LoginForm.t) (w : World) : Prop :=
  let w' := snd (login form w) in
  let verified := credential_verified (LoginForm.email form) (LoginForm.password form) w in
  (session_started w w' <-> verified = true)
  /\ (verified = false -> ~ session_started w w' /\ flash_shown w w').

(** The duplicate-email property for one registration: no user is created
    and the response redirects to the login page with the warning. *)
Definition register_duplicate_routes_to_login
  (env : Env) (form : RegisterForm.t) (w : World) : Prop :=
  email_taken (RegisterForm.email form) w ->
  users (db (snd (register env form w))) = users (db w)
  /\ fst (register env form w) = Ok (Redirect "login")
  /\ flashes (snd (register env form w)) = (flashes w ++ [email_registered_message])%list.

(** ** api/index.py: the home page and the routes *)

(** [try: body  except Exception as e: handler(e)] *)
Definition try_except_Exception {A} (body : M A) (handler : Exn -> M A) : M A :=
  fun w =>
    match body w with
    | (Raise e, w') => handler e w'
    | r => r
    end.

(** [print(...)]: standard output is not part of the [World], so what is
    printed is not kept. *)
Definition print {A} (x : A) : M unit := ret tt.

(** [BlogPost.query.all()] *)
Definition BlogPost_query_all : M (list BlogPost.t) :=
  fun w => (Ok (blog_posts (db w)), w).

(** [home] returns the page, or [None] when it falls out of its [except]
    branch without a [return]. *)
Definition home : M (option Response) :=
  try_except_Exception
    (posts <- BlogPost_query_all ;;
     user <- current_user ;;
     logged_in <- current_user_is_authenticated ;;
     page <- render_template "index.html"
               [("year", VInt year); ("user", VUser user);
                ("logged_in", VBool logged_in); ("posts", VPosts posts)] ;;
     ret (Some page))
    (fun e =>
       print "Error returning the home page" ;;;
       print ("Here is the error: ", e) ;;;
       ret None).

(** The requests the routes of the application accept.  A [post_id] is
    what the [<int:post_id>] converter made of the path; [routable] below
    says which ids the router and the store take. *)
Inductive Request :=
| Home
| Register (env : Env) (form : RegisterForm.t)
| Login (form : LoginForm.t)
| Logout
| NewPost (env : Env) (form : CreatePostForm.t)
| DeletePost (post_id : Z)
| ShowPost (post_id : Z)
| PostCategory (category : string).

(** The route table: each request goes to its view, and Flask makes the
    response; a view that returns [None] is an internal server error. *)
Definition wsgi_app (r : Request) (w : World) : HttpResponse * World :=
  match r with
  | Home =>
      match home w with
      | (Ok (Some page), w') => full_dispatch_request (ret page) w'
      | (Ok None, w') => (ErrorPage 500, w')
      | (Raise e, w') => full_dispatch_request (raise e) w'
      end
  | Register env form => full_dispatch_request (register env form) w
  | Login form => full_dispatch_request (login form) w
  | Logout => full_dispatch_request logout w
  | NewPost env form => full_dispatch_request (new_post env form) w
  | DeletePost post_id => full_dispatch_request (delete_post post_id) w
  | ShowPost post_id => full_dispatch_request (show_post post_id) w
  | PostCategory category => full_dispatch_request (post_category category) w
  end.

(** A fresh database, nobody logged in. *)
Definition initial_world : World :=
  {| db := {| users := []; blog_posts := []; comments := [] |};
     session_user_id := None; flashes := []; user_logged_in := [] |}.

(** The worlds the application gets to from the fresh database, by any
    sequence of requests of one client. *)
Inductive reachable : World -> Prop :=
| reachable_initial : reachable initial_world
| reachable_request (r : Request) (w : World) :
    reachable w -> reachable (snd (wsgi_app r w)).

(** ** More notions *)

(** The request comes from the first user. *)
Definition is_admin (w : World) : Prop :=
  exists u, identity w = Authenticated u /\ User.id u = 1%Z.

(** The name a category is shown under. *)
Definition category_name (category : string) : string :=
  if String.eqb category "Tech" then "Technology" else category.

(** The keys of the tables and the columns the application keeps unique. *)
Definition unique_keys (w : World) : Prop :=
  NoDup (map User.id (users (db w)))
  /\ NoDup (map User.email (users (db w)))
  /\ NoDup (map BlogPost.id (blog_posts (db w)))
  /\ NoDup (map BlogPost.title (blog_posts (db w))).

(** Every stored post has one of the genres of the form. *)
Definition genres_valid (w : World) : Prop :=
  Forall (fun p => In (BlogPost.genre p) CreatePostForm.genre_choices)
         (blog_posts (db w)).


(** The first stored user has id 1 and every later one a larger id. *)
Definition first_user_has_id_one (w : World) : Prop :=
  match users (db w) with
  | [] => True
  | u :: rest => User.id u = 1%Z /\ forall v, In v rest -> (1 < User.id v)%Z
  end.

(** The id kept in the session is the id of a stored user. *)
Definition session_valid (w : World) : Prop :=
  forall i, session_user_id w = Some i ->
            exists u, In u (users (db w)) /\ User.id u = i.

(** Every stored password is the hash of a password of 7 to 25 characters. *)
Definition credentials_hashed (w : World) : Prop :=
  forall u, In u (users (db w)) ->
            exists env password,
              User.password u = generate_password_hash env password "pbkdf2:sha256" 8
              /\ 7 <= String.length password <= 25.

(** A calendar day with a year of four digits. *)
Definition valid_date (d : datetime) : Prop :=
  1 <= dt_month d <= 12 /\ 1 <= dt_day d <= 31
  /\ String.length (Str.of_nat (dt_year d)) = 4.



(** A character that [str.strip] keeps. *)
Definition has_text (data : string) : Prop :=
  exists c, In c (list_ascii_of_string data) /\ Str.isspace c = false.

(** What one request can do to the world: nothing, flash a message, log a
    stored user in, log out, store a user under an email nobody has, with
    the hash of a password of 7 to 25 characters, and log that user in,
    and for the first user store a post of a fresh title and a genre of
    the form, or delete a stored post. *)
Inductive effect (w : World) : World -> Prop :=
| effect_none : effect w w
| effect_flash (message : string) :
    effect w (snd (flash message w))
| effect_login (u : User.t) :
    In u (users (db w)) -> effect w (snd (login_user u w))
| effect_logout : effect w (snd (logout_user w))
| effect_register (env : Env) (name email password : string) :
    ~ email_taken email w ->
    7 <= String.length password <= 25 ->
    effect w (snd ((new_user <- db_session_add_commit_user name email
                                  (generate_password_hash env password
                                                          "pbkdf2:sha256" 8) ;;
                    login_user new_user) w))
| effect_new_post (title subtitle genre img_url body date : string) :
    is_admin w -> ~ title_taken title w ->
    In genre CreatePostForm.genre_choices ->
    effect w (snd (db_session_add_commit_post title subtitle genre img_url body date w))
| effect_delete_post (p : BlogPost.t) :
    is_admin w -> In p (blog_posts (db w)) ->
    effect w (snd (db_session_delete_commit_post (Some p) w)).

(** * Properties *)

(** ** Strings *)

Lemma length_append (a b : string) :
  String.length (a ++ b) = String.length a + String.length b.
Proof. induction a as [|c a IH]; simpl; [reflexivity | now rewrite IH]. Qed.

Lemma append_inj_same_length (a b x y : string) :
  String.length a = String.length b -> a ++ x = b ++ y -> a = b /\ x = y.
Proof.
  revert b. induction a as [|c a IH]; intros [|d b] Hlen Heq; simpl in *;
    try discriminate.
  - now split.
  - injection Heq as Hc Hrest. injection Hlen as Hlen.
    destruct (IH b Hlen Hrest) as [-> ->]. now subst.
Qed.

Lemma length_string_of_list_ascii (l : list ascii) :
  String.length (string_of_list_ascii l) = List.length l.
Proof. induction l as [|c l IH]; simpl; [reflexivity | now rewrite IH]. Qed.

Lemma contains_string_of_list_ascii (c : ascii) (l : list ascii) :
  (forall d, In d l -> Ascii.eqb d c = false) ->
  Str.contains c (string_of_list_ascii l) = false.
Proof.
  induction l as [|d l IH]; intros H; simpl; [reflexivity|].
  rewrite (H d (or_introl eq_refl)). apply IH. intros e He. apply H. now right.
Qed.

Lemma partition_append (c : ascii) (a b : string) :
  Str.contains c a = false -> Str.partition c (a ++ String c b) = Some (a, b).
Proof.
  induction a as [|d a IH]; simpl; intros H.
  - now rewrite Ascii.eqb_refl.
  - apply orb_false_iff in H as [Hd Ha]. now rewrite Hd, (IH Ha).
Qed.

Lemma split3_join (c : ascii) (a b rest : string) :
  Str.contains c a = false -> Str.contains c b = false ->
  Str.split3 c (a ++ String c (b ++ String c rest)) = Some (a, b, rest).
Proof.
  intros Ha Hb. unfold Str.split3.
  now rewrite (partition_append c a _ Ha), (partition_append c b _ Hb).
Qed.

(** ** The credential service *)

Lemma choice_in_SALT_CHARS (env : Env) (k : nat) :
  In (Werkzeug.choice env k Werkzeug.SALT_CHARS)
     (list_ascii_of_string Werkzeug.SALT_CHARS).
Proof.
  unfold Werkzeug.choice. apply nth_In.
  apply Nat.mod_upper_bound. vm_compute. discriminate.
Qed.

Lemma gen_salt_length (env : Env) (n : nat) :
  String.length (Werkzeug.gen_salt env n) = n.
Proof.
  unfold Werkzeug.gen_salt.
  now rewrite length_string_of_list_ascii, length_map, length_seq.
Qed.

Lemma gen_salt_no_dollar (env : Env) (n : nat) :
  Str.contains "$" (Werkzeug.gen_salt env n) = false.
Proof.
  unfold Werkzeug.gen_salt. apply contains_string_of_list_ascii.
  intros d Hd. apply in_map_iff in Hd as [k [<- _]].
  assert (Hall : forallb (fun e => negb (Ascii.eqb e "$"))
                   (list_ascii_of_string Werkzeug.SALT_CHARS) = true)
    by (vm_compute; reflexivity).
  rewrite forallb_forall in Hall.
  specialize (Hall _ (choice_in_SALT_CHARS env k)).
  now apply negb_true_iff in Hall.
Qed.

(** The stored credential is the method, the salt and the digest, joined
    by dollar signs. *)
Lemma generate_password_hash_eq (env : Env) (password : string) :
  generate_password_hash env password "pbkdf2:sha256" 8 =
  "pbkdf2:sha256:600000" ++ "$" ++ Werkzeug.gen_salt env 8 ++ "$" ++
  pbkdf2_hex "pbkdf2:sha256:600000" (Werkzeug.gen_salt env 8) password.
Proof. reflexivity. Qed.

Lemma check_generate_password_hash (env : Env) (password : string) :
  check_password_hash (generate_password_hash env password "pbkdf2:sha256" 8) password = true.
Proof.
  rewrite generate_password_hash_eq.
  unfold check_password_hash, Werkzeug.check_password_hash.
  change ("pbkdf2:sha256:600000" ++ "$" ++ Werkzeug.gen_salt env 8 ++ "$" ++
          pbkdf2_hex "pbkdf2:sha256:600000" (Werkzeug.gen_salt env 8) password)
    with ("pbkdf2:sha256:600000" ++
          String "$" (Werkzeug.gen_salt env 8 ++
          String "$" (pbkdf2_hex "pbkdf2:sha256:600000" (Werkzeug.gen_salt env 8) password))).
  rewrite split3_join by (reflexivity || apply gen_salt_no_dollar).
  unfold Werkzeug._hash_internal. simpl. apply String.eqb_refl.
Qed.

Lemma generate_password_hash_length (env : Env) (password : string) :
  30 <= String.length (generate_password_hash env password "pbkdf2:sha256" 8).
Proof.
  rewrite generate_password_hash_eq.
  rewrite !length_append, gen_salt_length. simpl. lia.
Qed.





(** ** The database *)

Lemma next_id_above (ids : list Z) (i : Z) : In i ids -> (i < next_id ids)%Z.
Proof.
  unfold next_id. induction ids as [|j ids IH]; simpl; [tauto|].
  intros [-> | Hin]; [lia | specialize (IH Hin); lia].
Qed.

Lemma next_id_fresh (ids : list Z) : ~ In (next_id ids) ids.
Proof. intros H. apply next_id_above in H. lia. Qed.

Lemma find_app_last {A} (f : A -> bool) (l : list A) (x : A) :
  (forall y, In y l -> f y = false) -> f x = true ->
  find f (l ++ [x])%list = Some x.
Proof.
  induction l as [|y l IH]; simpl; intros Hl Hx.
  - now rewrite Hx.
  - rewrite (Hl y (or_introl eq_refl)). apply IH; [|assumption].
    intros z Hz. apply Hl. now right.
Qed.

Lemma find_email_none (email : string) (w : World) :
  ~ email_taken email w ->
  find (fun u => String.eqb (User.email u) email) (users (db w)) = None.
Proof.
  intros Hfresh.
  destruct (find _ _) as [u|] eqn:Hfind; [|reflexivity].
  apply find_some in Hfind as [Hin Heq]. apply String.eqb_eq in Heq.
  exfalso. apply Hfresh. now exists u.
Qed.

Lemma find_email_some (email : string) (w : World) :
  email_taken email w ->
  exists u, find (fun u => String.eqb (User.email u) email) (users (db w)) = Some u.
Proof.
  intros [u [Hin Heq]].
  destruct (find _ _) as [v|] eqn:Hfind; [now exists v|].
  apply (find_none _ _ Hfind) in Hin. rewrite Heq, String.eqb_refl in Hin.
  discriminate.
Qed.

Lemma existsb_title_taken (title : string) (w : World) :
  existsb (fun p => String.eqb (BlogPost.title p) title) (blog_posts (db w)) = true
  <-> title_taken title w.
Proof.
  rewrite existsb_exists. unfold title_taken.
  split; intros [p [Hin Heq]]; exists p; split; try assumption;
    [now apply String.eqb_eq | now apply String.eqb_eq].
Qed.

(** ** Identity *)

Lemma current_user_identity (w : World) : current_user w = (Ok (identity w), w).
Proof.
  unfold current_user, identity, load_user, User_query_get.
  destruct (session_user_id w) as [uid|]; [|reflexivity].
  now destruct (find _ _).
Qed.

Lemma current_user_id_anonymous (w : World) :
  identity w = AnonymousUserMixin -> current_user_id w = (Raise AttributeError, w).
Proof.
  intros H. unfold current_user_id, bind. now rewrite current_user_identity, H.
Qed.

Lemma current_user_id_authenticated (w : World) (u : User.t) :
  identity w = Authenticated u -> current_user_id w = (Ok (User.id u), w).
Proof.
  intros H. unfold current_user_id, bind. now rewrite current_user_identity, H.
Qed.

(** ** The authorization guard *)

Lemma admin_only_forbidden {A} (function : A -> M Response) (args : A) (w : World) :
  identity w = AnonymousUserMixin
  \/ (exists u, identity w = Authenticated u /\ User.id u <> 1%Z) ->
  admin_only function args w = (Raise (HTTPException 403), w).
Proof.
  intros [Hanon | [u [Hu Hid]]]; unfold admin_only, try_except_AttributeError, bind.
  - now rewrite (current_user_id_anonymous w Hanon).
  - rewrite (current_user_id_authenticated w u Hu).
    apply Z.eqb_neq in Hid. now rewrite Hid.
Qed.

(** For the first user the wrapper gives what the function gives, unless
    the function raises [AttributeError]. *)
Lemma admin_only_passes_through {A} (function : A -> M Response) (args : A) (w : World) :
  (exists u, identity w = Authenticated u /\ User.id u = 1%Z) ->
  fst (function args w) <> Raise AttributeError ->
  admin_only function args w = function args w.
Proof.
  intros [u [Hu Hid]] Hno. unfold admin_only, try_except_AttributeError, bind.
  rewrite (current_user_id_authenticated w u Hu), Hid. simpl.
  destruct (function args w) as [[r|e] w']; [reflexivity|].
  destruct e; try reflexivity. now elim Hno.
Qed.

(** An [AttributeError] of the function itself is caught by the wrapper
    and answered like a missing permission. *)
Lemma admin_only_catches_AttributeError
  {A} (function : A -> M Response) (args : A) (w w' : World) :
  (exists u, identity w = Authenticated u /\ User.id u = 1%Z) ->
  function args w = (Raise AttributeError, w') ->
  admin_only function args w = (Raise (HTTPException 403), w').
Proof.
  intros [u [Hu Hid]] Hf. unfold admin_only, try_except_AttributeError, bind.
  rewrite (current_user_id_authenticated w u Hu), Hid. simpl. now rewrite Hf.
Qed.

Lemma new_post_view_no_AttributeError (env : Env) (form : CreatePostForm.t) (w : World) :
  fst (new_post_view env form w) <> Raise AttributeError.
Proof.
  unfold new_post_view, bind, db_session_add_commit_post,
    current_user_is_authenticated, bind, redirect, render_template, ret.
  destruct (CreatePostForm.validate_on_submit URL form).
  - destruct (existsb _ _); simpl; discriminate.
  - rewrite current_user_identity. destruct (identity w); simpl; discriminate.
Qed.

Lemma delete_post_view_no_AttributeError (post_id : Z) (w : World) :
  fst (delete_post_view post_id w) <> Raise AttributeError.
Proof.
  unfold delete_post_view, bind, BlogPost_query_get, db_session_delete_commit_post,
    redirect, ret.
  destruct (find _ _); simpl; discriminate.
Qed.

Lemma new_post_admin (env : Env) (form : CreatePostForm.t) (w : World) :
  (exists u, identity w = Authenticated u /\ User.id u = 1%Z) ->
  new_post env form w = new_post_view env form w.
Proof.
  intros Hadmin. unfold new_post.
  apply (admin_only_passes_through (fun _ : unit => new_post_view env form) tt w Hadmin).
  apply new_post_view_no_AttributeError.
Qed.

Lemma delete_post_admin (post_id : Z) (w : World) :
  (exists u, identity w = Authenticated u /\ User.id u = 1%Z) ->
  delete_post post_id w = delete_post_view post_id w.
Proof.
  intros Hadmin. unfold delete_post.
  apply (admin_only_passes_through delete_post_view post_id w Hadmin).
  apply delete_post_view_no_AttributeError.
Qed.

(** C1. For an identity that is anonymous or whose id is not 1, every
    [admin_only]-wrapped handler answers with the fixed 403 response,
    whatever the handler is (it is not run), and the world, with the
    database in it, is as before; being an abort, this is not an
    [AttributeError] escaping the guard.  For the identity with id 1 the
    wrapped [new_post] and [delete_post] give what their bodies give. *)
Theorem admin_only_guard (w : World) :
  (identity w = AnonymousUserMixin
   \/ (exists u, identity w = Authenticated u /\ User.id u <> 1%Z) ->
   forall (A : Type) (function : A -> M Response) (args : A),
     admin_only function args w = (Raise (HTTPException 403), w)
     /\ full_dispatch_request (admin_only function args) w = (ErrorPage 403, w))
  /\
  ((exists u, identity w = Authenticated u /\ User.id u = 1%Z) ->
   (forall env form, new_post env form w = new_post_view env form w)
   /\ (forall post_id, delete_post post_id w = delete_post_view post_id w)).
Proof.
  split.
  - intros Hid A function args.
    pose proof (admin_only_forbidden function args w Hid) as H.
    split; [exact H|]. unfold full_dispatch_request. now rewrite H.
  - intros Hadmin. split.
    + intros env form. now apply new_post_admin.
    + intros post_id. now apply delete_post_admin.
Qed.

(** ** Form validation *)

Lemma Length_spec (min max : nat) (data : string) :
  Validators.Length min max data = true <->
  min <= String.length data <= max.
Proof.
  unfold Validators.Length.
  replace (if Str.truthy data then String.length data else 0)
    with (String.length data) by now destruct data.
  rewrite andb_true_iff, !Nat.leb_le. reflexivity.
Qed.

Lemma RegisterForm_valid_password_length (form : RegisterForm.t) :
  RegisterForm.validate_on_submit form = true ->
  7 <= String.length (RegisterForm.password form) <= 25.
Proof.
  unfold RegisterForm.validate_on_submit, RegisterForm.validate,
    RegisterForm.password_validators, Validators.run_validation_chain.
  simpl. rewrite !andb_true_iff. intros [_ [_ [_ [H _]]]].
  now apply Length_spec.
Qed.

Lemma RegisterForm_invalid_password_length (form : RegisterForm.t) :
  String.length (RegisterForm.password form) < 7
  \/ 25 < String.length (RegisterForm.password form) ->
  RegisterForm.validate_on_submit form = false.
Proof.
  intros Hlen.
  destruct (RegisterForm.validate_on_submit form) eqn:Hv; [|reflexivity].
  apply RegisterForm_valid_password_length in Hv. lia.
Qed.

Lemma CreatePostForm_valid_genre (form : CreatePostForm.t) :
  CreatePostForm.validate_on_submit URL form = true ->
  In (CreatePostForm.genre form) CreatePostForm.genre_choices.
Proof.
  intros Hv.
  assert (Hchoice : Validators.valid_choice CreatePostForm.genre_choices
                      (CreatePostForm.genre form) = true).
  { revert Hv. unfold CreatePostForm.validate_on_submit, CreatePostForm.validate.
    rewrite !andb_true_iff. tauto. }
  unfold Validators.valid_choice in Hchoice.
  apply existsb_exists in Hchoice as [g [Hin Heq]].
  apply String.eqb_eq in Heq. now subst.
Qed.

(** ** Registration and login *)

Lemma app_singleton_neq {A} (l : list A) (x : A) : (l ++ [x])%list <> l.
Proof.
  intros H. apply (f_equal (@List.length A)) in H.
  rewrite length_app in H. simpl in H. lia.
Qed.

(** A registration that does not validate shows the form again and
    leaves the world as it is. *)
Lemma register_invalid (env : Env) (form : RegisterForm.t) (w : World) :
  RegisterForm.validate_on_submit form = false ->
  register env form w =
  (Ok (RenderTemplate "register.html"
         [("year", VInt year); ("form", VRegisterForm form);
          ("logged_in", VBool (match identity w with
                               | AnonymousUserMixin => false
                               | Authenticated _ => true
                               end));
          ("user", VUser (identity w))]), w).
Proof.
  intros Hv. unfold register. rewrite Hv.
  unfold bind, current_user_is_authenticated, bind, render_template, ret.
  rewrite current_user_identity. destruct (identity w) eqn:Hid; simpl;
    now rewrite current_user_identity, Hid.
Qed.

(** A valid registration with an email that is taken. *)
Lemma register_valid_taken (env : Env) (form : RegisterForm.t) (w : World) :
  RegisterForm.validate_on_submit form = true ->
  email_taken (RegisterForm.email form) w ->
  register env form w =
  (Ok (Redirect "login"), snd (flash email_registered_message w)).
Proof.
  intros Hv Htaken. unfold register. rewrite Hv.
  unfold bind, User_query_filter_by_email_first.
  now destruct (find_email_some _ _ Htaken) as [u ->].
Qed.

(** A valid registration with a fresh email. *)
Lemma register_valid_fresh (env : Env) (form : RegisterForm.t) (w : World) :
  RegisterForm.validate_on_submit form = true ->
  ~ email_taken (RegisterForm.email form) w ->
  let u := {| User.id := next_id (map User.id (users (db w)));
              User.name := RegisterForm.name form;
              User.email := RegisterForm.email form;
              User.password :=
                generate_password_hash env (RegisterForm.password form)
                                       "pbkdf2:sha256" 8 |} in
  register env form w =
  (Ok (Redirect "home"),
   {| db := {| users := users (db w) ++ [u];
               blog_posts := blog_posts (db w);
               comments := comments (db w) |};
      session_user_id := Some (User.id u);
      flashes := flashes w;
      user_logged_in := user_logged_in w ++ [User.id u] |}).
Proof.
  intros Hv Hfresh. unfold register. rewrite Hv.
  unfold bind, User_query_filter_by_email_first.
  now rewrite (find_email_none _ _ Hfresh).
Qed.

(** C3, as amended.  For every registration whose email is the email of a
    stored user, the user table is unchanged; when the registration also
    passes the validation of the form, the response redirects to the login
    page and the warning is flashed. *)
Theorem register_duplicate_email (env : Env) (form : RegisterForm.t) (w : World) :
  email_taken (RegisterForm.email form) w ->
  users (db (snd (register env form w))) = users (db w)
  /\ (RegisterForm.validate_on_submit form = true ->
      fst (register env form w) = Ok (Redirect "login")
      /\ flashes (snd (register env form w))
         = (flashes w ++ [email_registered_message])%list).
Proof.
  intros Htaken.
  destruct (RegisterForm.validate_on_submit form) eqn:Hv.
  - rewrite (register_valid_taken env form w Hv Htaken). simpl. now repeat split.
  - rewrite (register_invalid env form w Hv). simpl. split; [reflexivity|].
    discriminate.
Qed.

(** C4. For every registration that passes the validation of the form and
    whose email no stored user has, exactly one user is added to the
    table, under an id not in use; the stored password is the salted hash
    of the submitted one, differs from it and verifies it; and the new
    user is the identity of the session right after. *)
Theorem register_fresh_email (env : Env) (form : RegisterForm.t) (w : World) :
  RegisterForm.validate_on_submit form = true ->
  ~ email_taken (RegisterForm.email form) w ->
  exists u : User.t,
    fst (register env form w) = Ok (Redirect "home")
    /\ users (db (snd (register env form w))) = (users (db w) ++ [u])%list
    /\ ~ In (User.id u) (map User.id (users (db w)))
    /\ User.name u = RegisterForm.name form
    /\ User.email u = RegisterForm.email form
    /\ User.password u
       = "pbkdf2:sha256:600000" ++ "$" ++ Werkzeug.gen_salt env 8 ++ "$" ++
         pbkdf2_hex "pbkdf2:sha256:600000" (Werkzeug.gen_salt env 8)
                    (RegisterForm.password form)
    /\ User.password u <> RegisterForm.password form
    /\ check_password_hash (User.password u) (RegisterForm.password form) = true
    /\ session_started w (snd (register env form w))
    /\ identity (snd (register env form w)) = Authenticated u.
Proof.
  intros Hv Hfresh.
  pose proof (register_valid_fresh env form w Hv Hfresh) as Hreg.
  cbv zeta in Hreg. eexists. rewrite Hreg.
  unfold session_started, identity.
  cbn [fst snd db users session_user_id user_logged_in
       User.id User.name User.email User.password].
  repeat match goal with |- _ /\ _ => split end; try reflexivity.
  - apply next_id_fresh.
  - intros Heq. cbn [User.password] in Heq.
    pose proof (generate_password_hash_length env (RegisterForm.password form)) as Hlen.
    rewrite Heq in Hlen.
    pose proof (RegisterForm_valid_password_length form Hv). lia.
  - apply check_generate_password_hash.
  - apply app_singleton_neq.
  - rewrite find_app_last; [reflexivity| |].
    + intros y Hy. cbn [User.id]. apply Z.eqb_neq. intros Heq.
      apply (next_id_fresh (map User.id (users (db w)))).
      rewrite <- Heq. now apply in_map.
    + cbn [User.id]. apply Z.eqb_refl.
Qed.

(** C10. A registration whose password has fewer than 7 or more than 25
    characters fails the validation of the form, the registration page is
    shown again and the world is as before: no user, no session.  So a
    registration that changes the world has a password of 7 to 25
    characters. *)
Theorem register_password_length (env : Env) (form : RegisterForm.t) (w : World) :
  (String.length (RegisterForm.password form) < 7
   \/ 25 < String.length (RegisterForm.password form) ->
   RegisterForm.validate_on_submit form = false
   /\ snd (register env form w) = w
   /\ exists context,
        fst (register env form w) = Ok (RenderTemplate "register.html" context))
  /\
  (snd (register env form w) <> w ->
   7 <= String.length (RegisterForm.password form) <= 25).
Proof.
  split.
  - intros Hlen.
    pose proof (RegisterForm_invalid_password_length form Hlen) as Hv.
    rewrite (register_invalid env form w Hv). simpl.
    repeat split; try assumption. eexists. reflexivity.
  - intros Hchanged.
    destruct (RegisterForm.validate_on_submit form) eqn:Hv.
    + now apply RegisterForm_valid_password_length.
    + exfalso. apply Hchanged. now rewrite (register_invalid env form w Hv).
Qed.

(** A login that does not validate shows the form again and leaves the
    world as it is: no session, and no flashed message either. *)
Lemma login_invalid (form : LoginForm.t) (w : World) :
  LoginForm.validate_on_submit form = false ->
  login form w =
  (Ok (RenderTemplate "login.html"
         [("year", VInt year); ("form", VLoginForm form)]), w).
Proof. intros Hv. unfold login. now rewrite Hv. Qed.

(** A valid login whose credential verifies logs the stored user in. *)
Lemma login_valid_verified (form : LoginForm.t) (w : World) (u : User.t) :
  LoginForm.validate_on_submit form = true ->
  find (fun u => String.eqb (User.email u) (LoginForm.email form)) (users (db w)) = Some u ->
  check_password_hash (User.password u) (LoginForm.password form) = true ->
  login form w = (Ok (Redirect "home"), snd (login_user u w)).
Proof.
  intros Hv Hfind Hcheck. unfold login. rewrite Hv.
  unfold bind, User_query_filter_by_email_first. now rewrite Hfind, Hcheck.
Qed.

Lemma login_valid_follows_verification (form : LoginForm.t) (w : World) :
  LoginForm.validate_on_submit form = true ->
  login_sessions_follow_verification form w.
Proof.
  intros Hv.
  unfold login_sessions_follow_verification, credential_verified, login.
  rewrite Hv. unfold bind, User_query_filter_by_email_first.
  unfold session_started, flash_shown.
  destruct (find _ (users (db w))) as [u|];
    [destruct (check_password_hash _ _)|];
    cbn [snd fst login_user flash redirect render_template ret
         user_logged_in flashes];
    (split; [split|]).
  - reflexivity.
  - intros _. apply app_singleton_neq.
  - discriminate.
  - intros H. now elim H.
  - discriminate.
  - intros _. split; [intros H; now elim H | eexists; reflexivity].
  - intros H. now elim H.
  - discriminate.
  - intros _. split; [intros H; now elim H | eexists; reflexivity].
Qed.

(** C2, as amended.  For every (email, password) pair that passes the
    validation of the login form, a session is started if and only if a
    stored user has the email and the password verifies against the
    credential stored for it; the session then carries the id of that
    user and the response redirects to the home page; when it does not
    verify, no session is started, the id in the session stays as it was,
    a message is flashed and the login page is shown again.  A submission
    that fails the validation starts no session and flashes no message:
    the login page is shown again. *)
Theorem login_session_iff_verified (form : LoginForm.t) (w : World) :
  let w' := snd (login form w) in
  let verified :=
    credential_verified (LoginForm.email form) (LoginForm.password form) w in
  let page :=
    Ok (RenderTemplate "login.html"
          [("year", VInt year); ("form", VLoginForm form)]) in
  (LoginForm.validate_on_submit form = true ->
   login_sessions_follow_verification form w
   /\ (verified = true ->
       exists u,
         find (fun v => String.eqb (User.email v) (LoginForm.email form))
              (users (db w)) = Some u
         /\ session_user_id w' = Some (User.id u)
         /\ fst (login form w) = Ok (Redirect "home"))
   /\ (verified = false ->
       session_user_id w' = session_user_id w /\ fst (login form w) = page))
  /\ (LoginForm.validate_on_submit form = false ->
      ~ session_started w w'
      /\ session_user_id w' = session_user_id w
      /\ flashes w' = flashes w
      /\ fst (login form w) = page).
Proof.
  cbv zeta. split.
  - intros Hv. split; [now apply login_valid_follows_verification|].
    unfold credential_verified, login. rewrite Hv.
    unfold bind, User_query_filter_by_email_first.
    destruct (find _ (users (db w))) as [u|];
      [destruct (check_password_hash _ _)|]; split;
      try discriminate; try (intros _; split; reflexivity).
    intros _. exists u. repeat split.
  - intros Hv. rewrite (login_invalid form w Hv). cbn [fst snd].
    unfold session_started. repeat split. intros H. now apply H.
Qed.

(** ** The date of a post *)

Lemma of_nat_inj (n m : nat) : Str.of_nat n = Str.of_nat m -> n = m.
Proof.
  unfold Str.of_nat. intros H.
  apply (f_equal NilEmpty.uint_of_string) in H. rewrite !NilEmpty.usu in H.
  injection H as H. apply (f_equal Nat.of_uint) in H.
  now rewrite !DecimalNat.Unsigned.of_to in H.
Qed.

Lemma zfill_full (width : nat) (s : string) :
  String.length s = width -> Str.zfill width s = s.
Proof. intros <-. unfold Str.zfill. now rewrite Nat.sub_diag. Qed.

Lemma two_digits_length (n : nat) :
  n <= 31 -> String.length (Str.zfill 2 (Str.of_nat n)) = 2.
Proof.
  intros Hn.
  assert (Hall : forallb (fun k => Nat.eqb (String.length (Str.zfill 2 (Str.of_nat k))) 2)
                         (seq 0 32) = true) by (vm_compute; reflexivity).
  rewrite forallb_forall in Hall. apply Nat.eqb_eq, Hall, in_seq. lia.
Qed.

Lemma two_digits_inj (n m : nat) :
  n <= 31 -> m <= 31 ->
  Str.zfill 2 (Str.of_nat n) = Str.zfill 2 (Str.of_nat m) -> n = m.
Proof.
  intros Hn Hm Heq.
  assert (Hall : forallb
                   (fun a => forallb
                               (fun b => implb (String.eqb (Str.zfill 2 (Str.of_nat a))
                                                           (Str.zfill 2 (Str.of_nat b)))
                                               (Nat.eqb a b))
                               (seq 0 32))
                   (seq 0 32) = true) by (vm_compute; reflexivity).
  rewrite forallb_forall in Hall.
  assert (Hn' : In n (seq 0 32)) by (apply in_seq; lia).
  assert (Hm' : In m (seq 0 32)) by (apply in_seq; lia).
  specialize (Hall n Hn'). rewrite forallb_forall in Hall.
  specialize (Hall m Hm'). apply String.eqb_eq in Heq. rewrite Heq in Hall.
  now apply Nat.eqb_eq.
Qed.




Lemma strftime_mdY_day (d1 d2 : datetime) :
  valid_date d1 -> valid_date d2 ->
  String.length (strftime_mdY d1) = 10
  /\ (strftime_mdY d1 = strftime_mdY d2 -> d1 = d2).
Proof.
  intros [[_ Hm1] [[_ Hd1] Hy1]] [[_ Hm2] [[_ Hd2] Hy2]].
  assert (Lm1 := two_digits_length (dt_month d1) ltac:(lia)).
  assert (Lm2 := two_digits_length (dt_month d2) ltac:(lia)).
  assert (Ld1 := two_digits_length (dt_day d1) ltac:(lia)).
  assert (Ld2 := two_digits_length (dt_day d2) ltac:(lia)).
  unfold strftime_mdY. rewrite !(zfill_full 4) by assumption. split.
  - rewrite !length_append, Lm1, Ld1, Hy1. reflexivity.
  - intros Heq.
    apply append_inj_same_length in Heq as [Hm Heq]; [|congruence].
    apply (append_inj_same_length "/" "/" _ _ eq_refl) in Heq as [_ Heq].
    apply append_inj_same_length in Heq as [Hd Heq]; [|congruence].
    apply (append_inj_same_length "/" "/" _ _ eq_refl) in Heq as [_ Hy].
    apply two_digits_inj in Hm; [|lia|lia].
    apply two_digits_inj in Hd; [|lia|lia].
    apply of_nat_inj in Hy.
    destruct d1, d2. simpl in *. now subst.
Qed.

(** ** Posts *)

(** As the first user, a valid form with a fresh title stores the post. *)
Lemma new_post_view_valid_fresh (env : Env) (form : CreatePostForm.t) (w : World) :
  CreatePostForm.validate_on_submit URL form = true ->
  ~ title_taken (CreatePostForm.title form) w ->
  let p := {| BlogPost.id := next_id (map BlogPost.id (blog_posts (db w)));
              BlogPost.title := CreatePostForm.title form;
              BlogPost.subtitle := CreatePostForm.subtitle form;
              BlogPost.date := strftime_mdY (today env);
              BlogPost.body := CreatePostForm.body form;
              BlogPost.img_url := CreatePostForm.img_url form;
              BlogPost.author_id := None;
              BlogPost.genre := CreatePostForm.genre form |} in
  new_post_view env form w =
  (Ok (Redirect "home"),
   set_db {| users := users (db w);
             blog_posts := blog_posts (db w) ++ [p];
             comments := comments (db w) |} w).
Proof.
  intros Hv Hfresh. unfold new_post_view. rewrite Hv.
  unfold bind, db_session_add_commit_post.
  destruct (existsb _ _) eqn:Hex; [|reflexivity].
  apply existsb_title_taken in Hex. contradiction.
Qed.

(** A valid form whose title is taken is refused by the database at
    commit: the view does not check the title itself. *)
Lemma new_post_view_valid_taken (env : Env) (form : CreatePostForm.t) (w : World) :
  CreatePostForm.validate_on_submit URL form = true ->
  title_taken (CreatePostForm.title form) w ->
  new_post_view env form w = (Raise IntegrityError, w).
Proof.
  intros Hv Htaken. unfold new_post_view. rewrite Hv.
  unfold bind, db_session_add_commit_post.
  apply existsb_title_taken in Htaken. now rewrite Htaken.
Qed.

(** The only way [new_post] redirects is by storing the post. *)
Lemma new_post_redirect_inv (env : Env) (form : CreatePostForm.t) (w w' : World) (e : string) :
  new_post env form w = (Ok (Redirect e), w') ->
  (exists u, identity w = Authenticated u /\ User.id u = 1%Z)
  /\ CreatePostForm.validate_on_submit URL form = true
  /\ ~ title_taken (CreatePostForm.title form) w.
Proof.
  intros H.
  assert (Hadmin : exists u, identity w = Authenticated u /\ User.id u = 1%Z).
  { destruct (identity w) as [|u] eqn:Hid.
    - unfold new_post in H. rewrite admin_only_forbidden in H by now left.
      discriminate.
    - destruct (Z.eq_dec (User.id u) 1) as [H1|H1]; [now exists u|].
      unfold new_post in H. rewrite admin_only_forbidden in H; [discriminate|].
      right. now exists u. }
  split; [exact Hadmin|].
  rewrite (new_post_admin env form w Hadmin) in H.
  destruct (CreatePostForm.validate_on_submit URL form) eqn:Hv.
  - split; [reflexivity|]. intros Htaken.
    rewrite (new_post_view_valid_taken env form w Hv Htaken) in H. discriminate.
  - exfalso. unfold new_post_view in H. rewrite Hv in H.
    unfold bind, current_user_is_authenticated, bind in H.
    rewrite current_user_identity in H.
    destruct (identity w); discriminate.
Qed.


(** Deleting an id that no stored post has: the query gives [None], which
    [db.session.delete] refuses. *)
Lemma delete_post_view_absent (post_id : Z) (w : World) :
  find (fun p => Z.eqb (BlogPost.id p) post_id) (blog_posts (db w)) = None ->
  delete_post_view post_id w = (Raise UnmappedInstanceError, w).
Proof.
  intros Hnone. unfold delete_post_view, bind, BlogPost_query_get.
  now rewrite Hnone.
Qed.

(** C5. The first user deletes post 1 and then deletes it again: the
    first request removes the post, the second raises
    [UnmappedInstanceError] out of the view, which the client sees as an
    internal server error; the world is not changed by it. *)
Theorem delete_post_twice_raises :
  delete_post 1 Sample.admin_world_hello = (Ok (Redirect "home"), Sample.admin_world)
  /\ delete_post 1 Sample.admin_world
     = (Raise UnmappedInstanceError, Sample.admin_world)
  /\ full_dispatch_request (delete_post 1) Sample.admin_world
     = (ErrorPage 500, Sample.admin_world).
Proof. repeat split; reflexivity. Qed.

(** A category without a picture: the lookup in [category_pics] fails. *)
Lemma post_category_KeyError (category : string) (w : World) :
  getitem category_pics (if String.eqb category "Tech" then "Technology" else category) = None ->
  post_category category w
  = (Raise (KeyError (if String.eqb category "Tech" then "Technology" else category)), w).
Proof.
  intros Hnone. unfold post_category, bind, BlogPost_query_filter_by_genre.
  rewrite current_user_identity. now rewrite Hnone.
Qed.

(** C8. A request for the category "Sports", in any world: the view
    raises [KeyError] and the client gets the page of an internal server
    error. *)
Theorem post_category_unknown_raises (w : World) :
  post_category "Sports" w = (Raise (KeyError "Sports"), w)
  /\ full_dispatch_request (post_category "Sports") w = (ErrorPage 500, w).
Proof.
  pose proof (post_category_KeyError "Sports" w eq_refl) as H.
  cbn [String.eqb Ascii.eqb Bool.eqb] in H.
  split; [exact H|]. unfold full_dispatch_request. now rewrite H.
Qed.


(** ** Every route, one request at a time *)

Lemma full_dispatch_request_snd (view : M Response) (w : World) :
  snd (full_dispatch_request view w) = snd (view w).
Proof.
  unfold full_dispatch_request.
  destruct (view w) as [[[e|t c]|[| | | |code]] w']; reflexivity.
Qed.

Lemma is_admin_or_not (w : World) :
  is_admin w
  \/ (identity w = AnonymousUserMixin
      \/ (exists u, identity w = Authenticated u /\ User.id u <> 1%Z)).
Proof.
  destruct (identity w) as [|u] eqn:Hid; [right; now left|].
  destruct (Z.eq_dec (User.id u) 1) as [H1|H1].
  - left. now exists u.
  - right. right. now exists u.
Qed.

Lemma not_admin_identity (w : World) :
  ~ is_admin w ->
  identity w = AnonymousUserMixin
  \/ (exists u, identity w = Authenticated u /\ User.id u <> 1%Z).
Proof. intros Hno. destruct (is_admin_or_not w) as [H|H]; [contradiction|exact H]. Qed.

Lemma home_eq (w : World) :
  home w =
  (Ok (Some (RenderTemplate "index.html"
               [("year", VInt year); ("user", VUser (identity w));
                ("logged_in", VBool (match identity w with
                                     | AnonymousUserMixin => false
                                     | Authenticated _ => true
                                     end));
                ("posts", VPosts (blog_posts (db w)))])), w).
Proof.
  unfold home, try_except_Exception, bind, BlogPost_query_all,
    current_user_is_authenticated, bind, render_template, ret.
  rewrite current_user_identity. rewrite current_user_identity.
  now destruct (identity w).
Qed.

Lemma show_post_eq (post_id : Z) (w : World) :
  show_post post_id w =
  (Ok (RenderTemplate "post.html"
         [("post", VPost (find (fun p => Z.eqb (BlogPost.id p) post_id)
                               (blog_posts (db w))));
          ("year", VInt year)]), w).
Proof. reflexivity. Qed.

Lemma post_category_snd (category : string) (w : World) :
  snd (post_category category w) = w.
Proof.
  unfold post_category, bind, BlogPost_query_filter_by_genre.
  rewrite current_user_identity. now destruct (getitem _ _).
Qed.

Lemma new_post_view_invalid (env : Env) (form : CreatePostForm.t) (w : World) :
  CreatePostForm.validate_on_submit URL form = false ->
  snd (new_post_view env form w) = w
  /\ exists context,
       fst (new_post_view env form w) = Ok (RenderTemplate "make-post.html" context).
Proof.
  intros Hv. unfold new_post_view. rewrite Hv.
  unfold bind, current_user_is_authenticated, bind.
  rewrite current_user_identity.
  destruct (identity w); simpl; split; try reflexivity; eexists; reflexivity.
Qed.

Lemma delete_post_view_present (post_id : Z) (w : World) (p : BlogPost.t) :
  find (fun p => Z.eqb (BlogPost.id p) post_id) (blog_posts (db w)) = Some p ->
  delete_post_view post_id w
  = (Ok (Redirect "home"), snd (db_session_delete_commit_post (Some p) w)).
Proof.
  intros Hfind. unfold delete_post_view, bind, BlogPost_query_get.
  now rewrite Hfind.
Qed.

Lemma register_effect (env : Env) (form : RegisterForm.t) (w : World) :
  effect w (snd (register env form w)).
Proof.
  destruct (RegisterForm.validate_on_submit form) eqn:Hv.
  - destruct (find (fun u => String.eqb (User.email u) (RegisterForm.email form))
                   (users (db w))) as [u|] eqn:Hfind.
    + rewrite register_valid_taken; try assumption.
      * apply effect_flash.
      * apply find_some in Hfind as [Hin Heq]. apply String.eqb_eq in Heq.
        now exists u.
    + assert (Hfresh : ~ email_taken (RegisterForm.email form) w).
      { intros [u [Hin Heq]]. apply (find_none _ _ Hfind) in Hin.
        rewrite Heq, String.eqb_refl in Hin. discriminate. }
      rewrite (register_valid_fresh env form w Hv Hfresh).
      apply (effect_register w env (RegisterForm.name form) (RegisterForm.email form)
               (RegisterForm.password form) Hfresh).
      now apply RegisterForm_valid_password_length.
  - rewrite (register_invalid env form w Hv). apply effect_none.
Qed.

Lemma login_effect (form : LoginForm.t) (w : World) :
  effect w (snd (login form w)).
Proof.
  unfold login. destruct (LoginForm.validate_on_submit form); [|apply effect_none].
  unfold bind, User_query_filter_by_email_first.
  destruct (find _ (users (db w))) as [u|] eqn:Hfind.
  - destruct (check_password_hash _ _).
    + apply find_some in Hfind as [Hin _]. now apply (effect_login w u).
    + apply (effect_flash w).
  - apply (effect_flash w).
Qed.

Lemma new_post_effect (env : Env) (form : CreatePostForm.t) (w : World) :
  effect w (snd (new_post env form w)).
Proof.
  destruct (is_admin_or_not w) as [Hadmin|Hno].
  - rewrite (new_post_admin env form w Hadmin).
    destruct (CreatePostForm.validate_on_submit URL form) eqn:Hv.
    + unfold new_post_view. rewrite Hv. unfold bind.
      destruct (existsb (fun p => String.eqb (BlogPost.title p) (CreatePostForm.title form))
                        (blog_posts (db w))) eqn:Hex.
      * unfold db_session_add_commit_post. rewrite Hex. apply effect_none.
      * assert (Hfresh : ~ title_taken (CreatePostForm.title form) w).
        { intros Ht. apply existsb_title_taken in Ht. congruence. }
        pose proof (effect_new_post w (CreatePostForm.title form)
                      (CreatePostForm.subtitle form) (CreatePostForm.genre form)
                      (CreatePostForm.img_url form) (CreatePostForm.body form)
                      (strftime_mdY (today env)) Hadmin Hfresh
                      (CreatePostForm_valid_genre form Hv)) as He.
        unfold db_session_add_commit_post in *. rewrite Hex in *. exact He.
    + destruct (new_post_view_invalid env form w Hv) as [-> _]. apply effect_none.
  - unfold new_post. rewrite admin_only_forbidden by exact Hno. apply effect_none.
Qed.

Lemma delete_post_effect (post_id : Z) (w : World) :
  effect w (snd (delete_post post_id w)).
Proof.
  destruct (is_admin_or_not w) as [Hadmin|Hno].
  - rewrite (delete_post_admin post_id w Hadmin).
    destruct (find (fun p => Z.eqb (BlogPost.id p) post_id) (blog_posts (db w)))
      as [p|] eqn:Hfind.
    + rewrite (delete_post_view_present post_id w p Hfind).
      apply find_some in Hfind as [Hin _]. now apply effect_delete_post.
    + rewrite (delete_post_view_absent post_id w Hfind). apply effect_none.
  - unfold delete_post. rewrite admin_only_forbidden by exact Hno. apply effect_none.
Qed.

Lemma request_effect (r : Request) (w : World) :
  effect w (snd (wsgi_app r w)).
Proof.
  destruct r as [|env form|form| |env form|post_id|post_id|category];
    unfold wsgi_app; try rewrite full_dispatch_request_snd.
  - rewrite home_eq. apply effect_none.
  - apply register_effect.
  - apply login_effect.
  - apply effect_logout.
  - apply new_post_effect.
  - apply delete_post_effect.
  - apply effect_none.
  - rewrite post_category_snd. apply effect_none.
Qed.

(** X1. Whatever the request and the world, the world after it is the
    world before changed in one of seven ways: not at all, by one flashed
    message, by logging a stored user in, by logging out, by storing a
    user under an email nobody has (with the hash of a password of 7 to 25
    characters) and logging that user in, and, only when the request comes
    from the first user, by storing a post under a title no post has, with
    a genre of the form, or by deleting a stored post. *)
Theorem wsgi_app_effect (r : Request) (w : World) :
  effect w (snd (wsgi_app r w)).
Proof. apply request_effect. Qed.

(** ** What requests keep *)

Lemma NoDup_map_snoc {A B} (f : A -> B) (l : list A) (x : A) :
  NoDup (map f l) -> ~ In (f x) (map f l) -> NoDup (map f (l ++ [x])%list).
Proof.
  induction l as [|y l IH]; simpl; intros Hnd Hx.
  - constructor; [tauto | constructor].
  - inversion Hnd as [|? ? Hy Hl]; subst. constructor.
    + rewrite map_app, in_app_iff. simpl. intros [H|[H|[]]]; [now apply Hy|].
      apply Hx. now left.
    + apply IH; [assumption|]. intros H. apply Hx. now right.
Qed.

Lemma NoDup_map_filter {A B} (f : A -> B) (g : A -> bool) (l : list A) :
  NoDup (map f l) -> NoDup (map f (filter g l)).
Proof.
  induction l as [|y l IH]; simpl; intros Hnd; [constructor|].
  inversion Hnd as [|? ? Hy Hl]; subst.
  destruct (g y); simpl; [constructor|]; try now apply IH.
  intros H. apply Hy. apply in_map_iff in H as [z [Hz Hin]].
  apply filter_In in Hin as [Hin _]. apply in_map_iff. now exists z.
Qed.

Lemma add_post_fresh
  (title subtitle genre img_url body date : string) (w : World) :
  ~ title_taken title w ->
  db_session_add_commit_post title subtitle genre img_url body date w =
  let row := {| BlogPost.id := next_id (map BlogPost.id (blog_posts (db w)));
                BlogPost.title := title; BlogPost.subtitle := subtitle;
                BlogPost.date := date; BlogPost.body := body;
                BlogPost.img_url := img_url; BlogPost.author_id := None;
                BlogPost.genre := genre |} in
  (Ok row,
   set_db {| users := users (db w);
             blog_posts := blog_posts (db w) ++ [row];
             comments := comments (db w) |} w).
Proof.
  intros Hfresh. unfold db_session_add_commit_post.
  destruct (existsb _ _) eqn:Hex; [|reflexivity].
  apply existsb_title_taken in Hex. contradiction.
Qed.

(** The database after one effect. *)
Lemma effect_db (w w' : World) :
  effect w w' ->
  db w' = db w
  \/ (exists u,
        db w' = {| users := users (db w) ++ [u];
                   blog_posts := blog_posts (db w);
                   comments := comments (db w) |}
        /\ User.id u = next_id (map User.id (users (db w)))
        /\ ~ email_taken (User.email u) w
        /\ session_user_id w' = Some (User.id u)
        /\ exists env password,
             User.password u
             = generate_password_hash env password "pbkdf2:sha256" 8
             /\ 7 <= String.length password <= 25)
  \/ (is_admin w
      /\ exists p,
           db w' = {| users := users (db w);
                      blog_posts := blog_posts (db w) ++ [p];
                      comments := comments (db w) |}
           /\ BlogPost.id p = next_id (map BlogPost.id (blog_posts (db w)))
           /\ ~ title_taken (BlogPost.title p) w
           /\ In (BlogPost.genre p) CreatePostForm.genre_choices)
  \/ (is_admin w
      /\ exists p,
           In p (blog_posts (db w))
           /\ users (db w') = users (db w)
           /\ blog_posts (db w')
              = filter (fun q => negb (Z.eqb (BlogPost.id q) (BlogPost.id p)))
                       (blog_posts (db w))).
Proof.
  intros [ |message|u Hu| |env name email password Hfresh Hlen
          |title subtitle genre img_url body date Hadmin Hfresh Hgenre
          |p Hadmin Hp].
  - now left.
  - now left.
  - now left.
  - now left.
  - right. left.
    exists {| User.id := next_id (map User.id (users (db w)));
              User.name := name; User.email := email;
              User.password :=
                generate_password_hash env password "pbkdf2:sha256" 8 |}.
    cbn [User.id User.email User.password].
    split; [reflexivity|]. split; [reflexivity|]. split; [assumption|].
    split; [reflexivity|]. exists env, password. now split.
  - right. right. left. split; [assumption|].
    rewrite (add_post_fresh _ _ _ _ _ _ w Hfresh).
    exists {| BlogPost.id := next_id (map BlogPost.id (blog_posts (db w)));
              BlogPost.title := title; BlogPost.subtitle := subtitle;
              BlogPost.date := date; BlogPost.body := body;
              BlogPost.img_url := img_url; BlogPost.author_id := None;
              BlogPost.genre := genre |}.
    cbn [BlogPost.id BlogPost.title BlogPost.genre].
    split; [reflexivity|]. split; [reflexivity|]. now split.
  - right. right. right. split; [assumption|]. exists p.
    split; [assumption|]. split; reflexivity.
Qed.

Lemma effect_session (w w' : World) :
  effect w w' ->
  session_user_id w' = session_user_id w
  \/ session_user_id w' = None
  \/ exists u, In u (users (db w')) /\ session_user_id w' = Some (User.id u).
Proof.
  intros [ |message|u Hu| |env name email password Hfresh Hlen
          |title subtitle genre img_url body date Hadmin Hfresh Hgenre
          |p Hadmin Hp].
  - now left.
  - now left.
  - right. right. exists u. now split.
  - right. now left.
  - right. right.
    exists {| User.id := next_id (map User.id (users (db w)));
              User.name := name; User.email := email;
              User.password :=
                generate_password_hash env password "pbkdf2:sha256" 8 |}.
    split; [|reflexivity]. cbn [snd bind db_session_add_commit_user login_user
                                 db users set_db].
    apply in_or_app. right. now left.
  - left. rewrite (add_post_fresh _ _ _ _ _ _ w Hfresh). reflexivity.
  - now left.
Qed.

Lemma not_email_taken_iff (email : string) (w : World) :
  ~ email_taken email w <-> ~ In email (map User.email (users (db w))).
Proof.
  unfold email_taken. rewrite in_map_iff.
  split; intros H [u Hu]; apply H; exists u; tauto.
Qed.

Lemma not_title_taken_iff (title : string) (w : World) :
  ~ title_taken title w <-> ~ In title (map BlogPost.title (blog_posts (db w))).
Proof.
  unfold title_taken. rewrite in_map_iff.
  split; intros H [p Hp]; apply H; exists p; tauto.
Qed.

Lemma effect_unique_keys (w w' : World) :
  effect w w' -> unique_keys w -> unique_keys w'.
Proof.
  intros He [Hid [Hemail [Hpid Htitle]]]. unfold unique_keys.
  destruct (effect_db w w' He)
    as [-> | [[u [-> [Hu [Hfresh _]]]] | [[_ [p [-> [Hp [Hfresh _]]]]]
                                          | [_ [p [_ [Hus Hps]]]]]]].
  - now repeat split.
  - cbn. repeat split; try assumption.
    + apply NoDup_map_snoc; [assumption|]. rewrite Hu. apply next_id_fresh.
    + apply NoDup_map_snoc; [assumption|]. now apply not_email_taken_iff.
  - cbn. repeat split; try assumption.
    + apply NoDup_map_snoc; [assumption|]. rewrite Hp. apply next_id_fresh.
    + apply NoDup_map_snoc; [assumption|]. now apply not_title_taken_iff.
  - rewrite Hus, Hps. repeat split; try assumption; now apply NoDup_map_filter.
Qed.

(** X2. Every request keeps the keys unique: if no two users share an id
    or an email and no two posts share an id or a title before a request,
    the same holds after it. *)
Theorem wsgi_app_unique_keys (r : Request) (w : World) :
  unique_keys w -> unique_keys (snd (wsgi_app r w)).
Proof. apply effect_unique_keys, request_effect. Qed.

(** X3. A request that does not come from the first user leaves the posts
    as they are, whatever the route and the submitted data. *)
Theorem wsgi_app_posts_admin_only (r : Request) (w : World) :
  ~ is_admin w ->
  blog_posts (db (snd (wsgi_app r w))) = blog_posts (db w).
Proof.
  intros Hno.
  destruct (effect_db w _ (request_effect r w))
    as [-> | [[u [-> _]] | [[Hadmin _] | [Hadmin _]]]];
    try reflexivity; contradiction.
Qed.

(** X4. No request removes or alters a stored user: the user table after
    a request is the table before, followed by at most one new user whose
    id and email no stored user has. *)
Theorem wsgi_app_users_append_only (r : Request) (w : World) :
  users (db (snd (wsgi_app r w))) = users (db w)
  \/ exists u,
       users (db (snd (wsgi_app r w))) = (users (db w) ++ [u])%list
       /\ ~ In (User.id u) (map User.id (users (db w)))
       /\ ~ In (User.email u) (map User.email (users (db w))).
Proof.
  destruct (effect_db w _ (request_effect r w))
    as [-> | [[u [-> [Hu [Hfresh _]]]] | [[_ [p [-> _]]] | [_ [p [_ [-> _]]]]]]];
    try (now left).
  right. exists u. cbn. split; [reflexivity|]. split.
  - rewrite Hu. apply next_id_fresh.
  - now apply not_email_taken_iff.
Qed.

(** ** What holds in every reachable world *)

Lemma effect_users_incl (w w' : World) (u : User.t) :
  effect w w' -> In u (users (db w)) -> In u (users (db w')).
Proof.
  intros He Hin.
  destruct (effect_db w w' He)
    as [-> | [[v [-> _]] | [[_ [p [-> _]]] | [_ [p [_ [-> _]]]]]]];
    try assumption.
  cbn. apply in_or_app. now left.
Qed.

Lemma effect_first_user (w w' : World) :
  effect w w' -> first_user_has_id_one w -> first_user_has_id_one w'.
Proof.
  intros He Hinv. unfold first_user_has_id_one in *.
  destruct (effect_db w w' He)
    as [-> | [[u [-> [Hu _]]] | [[_ [p [-> _]]] | [_ [p [_ [-> _]]]]]]];
    try assumption.
  cbn [users]. destruct (users (db w)) as [|a rest] eqn:Hus.
  - cbn. split; [now rewrite Hu | intros v []].
  - destruct Hinv as [Ha Hrest]. cbn. split; [assumption|].
    intros v Hv. apply in_app_or in Hv as [Hv | [<- | []]]; [now apply Hrest|].
    rewrite Hu, <- Ha. apply next_id_above. now left.
Qed.

Lemma effect_session_valid (w w' : World) :
  effect w w' -> session_valid w -> session_valid w'.
Proof.
  intros He Hinv i Hi.
  destruct (effect_session w w' He) as [Hsame | [Hnone | [u [Hin Hu]]]].
  - rewrite Hsame in Hi. destruct (Hinv i Hi) as [u [Hin Hid]].
    exists u. split; [|assumption]. now apply (effect_users_incl w w').
  - congruence.
  - exists u. split; [assumption|]. congruence.
Qed.

Lemma effect_credentials_hashed (w w' : World) :
  effect w w' -> credentials_hashed w -> credentials_hashed w'.
Proof.
  intros He Hinv v Hv.
  destruct (effect_db w w' He)
    as [Hdb | [[u [Hdb [_ [_ [_ Hhash]]]]] | [[_ [p [Hdb _]]] | [_ [p [_ [Hus _]]]]]]].
  - rewrite Hdb in Hv. now apply Hinv.
  - rewrite Hdb in Hv. cbn in Hv. apply in_app_or in Hv as [Hv | [<- | []]];
      [now apply Hinv | exact Hhash].
  - rewrite Hdb in Hv. now apply Hinv.
  - rewrite Hus in Hv. now apply Hinv.
Qed.

Lemma effect_genres_valid (w w' : World) :
  effect w w' -> genres_valid w -> genres_valid w'.
Proof.
  intros He Hinv. unfold genres_valid in *.
  destruct (effect_db w w' He)
    as [-> | [[u [-> _]] | [[_ [p [-> [_ [_ Hgenre]]]]] | [_ [p [_ [_ ->]]]]]]];
    try assumption.
  - cbn. apply Forall_app. split; [assumption|]. now constructor.
  - rewrite Forall_forall in *. intros q Hq. apply filter_In in Hq as [Hq _].
    now apply Hinv.
Qed.

Lemma reachable_invariants (w : World) :
  reachable w ->
  unique_keys w /\ first_user_has_id_one w /\ session_valid w
  /\ credentials_hashed w /\ genres_valid w.
Proof.
  induction 1 as [|r w Hr [Hk [Hf [Hs [Hc Hg]]]]].
  - repeat split; try constructor.
    + intros i Hi. discriminate Hi.
    + intros u [].
  - pose proof (request_effect r w) as He. repeat split.
    + now apply (effect_unique_keys w).
    + now apply (effect_unique_keys w).
    + now apply (effect_unique_keys w).
    + now apply (effect_unique_keys w).
    + now apply (effect_first_user w).
    + now apply (effect_session_valid w).
    + now apply (effect_credentials_hashed w).
    + now apply (effect_genres_valid w).
Qed.

Lemma identity_In (w : World) (u : User.t) :
  identity w = Authenticated u ->
  In u (users (db w)) /\ session_user_id w = Some (User.id u).
Proof.
  unfold identity. destruct (session_user_id w) as [i|]; [|discriminate].
  destruct (find _ _) as [v|] eqn:Hfind; [|discriminate].
  intros [= <-]. apply find_some in Hfind as [Hin Heq].
  apply Z.eqb_eq in Heq. now subst.
Qed.

(** X5. In every world the application gets to from a fresh database, the
    user the guard lets through (the one with id 1) is exactly the user
    registered first: a logged-in user has id 1 if and only if that user
    is the first row of the user table. *)
Theorem reachable_admin_is_first_user (w : World) (u : User.t) :
  reachable w ->
  identity w = Authenticated u ->
  (User.id u = 1%Z <-> hd_error (users (db w)) = Some u).
Proof.
  intros Hr Hid.
  destruct (reachable_invariants w Hr) as [_ [Hfirst _]].
  destruct (identity_In w u Hid) as [Hin _].
  unfold first_user_has_id_one in Hfirst.
  destruct (users (db w)) as [|a rest]; [destruct Hin|].
  destruct Hfirst as [Ha Hrest]. cbn. split.
  - intros Hu. destruct Hin as [-> | Hin]; [reflexivity|].
    specialize (Hrest u Hin). lia.
  - intros [= ->]. assumption.
Qed.

(** X6. In every reachable world the id kept in the session is the id of
    a stored user, so a request is anonymous exactly when its session
    carries no id. *)
Theorem reachable_session_resolves (w : World) :
  reachable w ->
  (identity w = AnonymousUserMixin <-> session_user_id w = None).
Proof.
  intros Hr. destruct (reachable_invariants w Hr) as [_ [_ [Hs _]]].
  unfold identity. destruct (session_user_id w) as [i|] eqn:Hi; [|now split].
  destruct (Hs i Hi) as [u [Hin Hu]].
  destruct (find _ _) as [v|] eqn:Hfind.
  - split; discriminate.
  - apply (find_none _ _ Hfind) in Hin. rewrite Hu, Z.eqb_refl in Hin.
    discriminate.
Qed.

(** X7. In every reachable world every stored password is a salted hash:
    it has at least 30 characters, so it is none of the passwords the
    registration form accepts, and some password of 7 to 25 characters
    verifies against it. *)
Theorem reachable_credentials_hashed (w : World) (u : User.t) :
  reachable w ->
  In u (users (db w)) ->
  30 <= String.length (User.password u)
  /\ exists password,
       7 <= String.length password <= 25
       /\ check_password_hash (User.password u) password = true.
Proof.
  intros Hr Hin. destruct (reachable_invariants w Hr) as [_ [_ [_ [Hc _]]]].
  destruct (Hc u Hin) as [env [password [-> Hlen]]]. split.
  - apply generate_password_hash_length.
  - exists password. split; [assumption | apply check_generate_password_hash].
Qed.

(** X8. In every reachable world every stored post has one of the four
    genres of the form, so a category outside them has no posts to list. *)
Theorem reachable_genres_valid (w : World) (category : string) :
  reachable w ->
  genres_valid w
  /\ (~ In category CreatePostForm.genre_choices ->
      BlogPost_query_filter_by_genre category w = (Ok [], w)).
Proof.
  intros Hr. destruct (reachable_invariants w Hr) as [_ [_ [_ [_ Hg]]]].
  split; [assumption|]. intros Hout. unfold BlogPost_query_filter_by_genre.
  f_equal. f_equal. unfold genres_valid in Hg. rewrite Forall_forall in Hg.
  induction (blog_posts (db w)) as [|p ps IH]; [reflexivity|]. simpl.
  destruct (String.eqb_spec (BlogPost.genre p) category) as [Heq|Hneq].
  - exfalso. apply Hout. rewrite <- Heq. apply Hg. now left.
  - apply IH. intros q Hq. apply Hg. now right.
Qed.

(** ** Categories *)

Lemma post_category_known (category : string) (w : World) :
  In category ["Tech"; "Technology"; "Education"; "Entertainment"; "Random Thoughts"] ->
  exists filepath,
    getitem category_pics (category_name category) = Some filepath
    /\ post_category category w =
       (Ok (RenderTemplate "post_category.html"
              [("posts", VPosts (filter (fun p => String.eqb (BlogPost.genre p) category)
                                        (blog_posts (db w))));
               ("category", VStr (category_name category));
               ("user", VUser (identity w));
               ("filepath", VStr filepath);
               ("year", VInt year)]), w).
Proof.
  intros [<- | [<- | [<- | [<- | [<- | []]]]]];
    eexists; (split; [reflexivity|]);
    unfold post_category, bind, BlogPost_query_filter_by_genre;
    rewrite current_user_identity; reflexivity.
Qed.

Lemma post_category_unknown (category : string) (w : World) :
  ~ In category ["Tech"; "Technology"; "Education"; "Entertainment"; "Random Thoughts"] ->
  post_category category w = (Raise (KeyError category), w).
Proof.
  intros Hout.
  assert (Hneq : forall k, In k ["Tech"; "Technology"; "Education";
                                 "Entertainment"; "Random Thoughts"] ->
                           String.eqb k category = false).
  { intros k Hk. apply String.eqb_neq. intros ->. now apply Hout. }
  assert (Htech : String.eqb category "Tech" = false).
  { rewrite String.eqb_sym. apply Hneq. now left. }
  pose proof (post_category_KeyError category w) as H.
  rewrite Htech in H. apply H. unfold category_pics, getitem.
  rewrite !Hneq; [reflexivity| | | |]; simpl; auto 6.
Qed.

(** X9. [post_category] shows a page exactly for the five names "Tech",
    "Technology", "Education", "Entertainment" and "Random Thoughts": the
    page lists the stored posts whose genre is the requested name, in
    stored order, under the display name ("Technology" for "Tech") and
    with the picture of that display name; for every other name the view
    raises [KeyError].  In both cases the world is unchanged. *)
Theorem post_category_spec (category : string) (w : World) :
  (In category ["Tech"; "Technology"; "Education"; "Entertainment"; "Random Thoughts"] ->
   exists filepath,
     getitem category_pics (category_name category) = Some filepath
     /\ post_category category w =
        (Ok (RenderTemplate "post_category.html"
               [("posts", VPosts (filter (fun p => String.eqb (BlogPost.genre p) category)
                                         (blog_posts (db w))));
                ("category", VStr (category_name category));
                ("user", VUser (identity w));
                ("filepath", VStr filepath);
                ("year", VInt year)]), w))
  /\ (~ In category ["Tech"; "Technology"; "Education"; "Entertainment";
                     "Random Thoughts"] ->
      post_category category w = (Raise (KeyError category), w)).
Proof.
  split; [apply post_category_known | apply post_category_unknown].
Qed.

(** ** Which requests fail *)








(** ** Forms that do not validate *)

Lemma new_post_invalid_world (env : Env) (form : CreatePostForm.t) (w : World) :
  CreatePostForm.validate_on_submit URL form = false ->
  snd (new_post env form w) = w.
Proof.
  intros Hv. destruct (is_admin_or_not w) as [Hadmin|Hno].
  - rewrite (new_post_admin env form w Hadmin).
    now destruct (new_post_view_invalid env form w Hv).
  - unfold new_post. now rewrite admin_only_forbidden by exact Hno.
Qed.

(** X11. A form that does not validate changes nothing: whenever
    [validate_on_submit] is false (a GET, a bad CSRF token, a blank
    required field, a password of the wrong length, a genre outside the
    choices, a bad URL), [register], [login] and [new_post] return the
    world as it was: no row, no session, no flashed message. *)
Theorem invalid_form_changes_nothing
  (env : Env) (rform : RegisterForm.t) (lform : LoginForm.t)
  (pform : CreatePostForm.t) (w : World) :
  (RegisterForm.validate_on_submit rform = false ->
   snd (register env rform w) = w)
  /\ (LoginForm.validate_on_submit lform = false ->
      snd (login lform w) = w)
  /\ (CreatePostForm.validate_on_submit URL pform = false ->
      snd (new_post env pform w) = w).
Proof.
  split; [|split].
  - intros Hv. now rewrite (register_invalid env rform w Hv).
  - intros Hv. now rewrite (login_invalid lform w Hv).
  - apply new_post_invalid_world.
Qed.

(** ** The guard, for the first user *)

(** X12. For the first user the guard returns what the wrapped function
    returns, results and exceptions alike, with one exception: an
    [AttributeError] raised by the function itself is caught by the guard
    and answered with 403, as if the user had no permission. *)
Theorem admin_only_for_admin
  {A} (function : A -> M Response) (args : A) (w : World) :
  is_admin w ->
  admin_only function args w =
  match function args w with
  | (Raise AttributeError, w') => (Raise (HTTPException 403), w')
  | result => result
  end.
Proof.
  intros [u [Hu Hid]]. unfold admin_only, try_except_AttributeError, bind.
  rewrite (current_user_id_authenticated w u Hu), Hid. simpl.
  destruct (function args w) as [[r|e] w']; [reflexivity|].
  now destruct e.
Qed.

(** ** Deleting and showing posts *)

Lemma find_filter_other (post_id q : Z) (l : list BlogPost.t) :
  q <> post_id ->
  find (fun p => Z.eqb (BlogPost.id p) q)
       (filter (fun p => negb (Z.eqb (BlogPost.id p) post_id)) l)
  = find (fun p => Z.eqb (BlogPost.id p) q) l.
Proof.
  intros Hneq. induction l as [|p l IH]; [reflexivity|]. simpl.
  destruct (Z.eqb_spec (BlogPost.id p) post_id) as [Heq|Hne]; simpl.
  - destruct (Z.eqb_spec (BlogPost.id p) q) as [Hq|_]; [congruence | exact IH].
  - now rewrite IH.
Qed.

Lemma find_filter_same (post_id : Z) (l : list BlogPost.t) :
  find (fun p => Z.eqb (BlogPost.id p) post_id)
       (filter (fun p => negb (Z.eqb (BlogPost.id p) post_id)) l)
  = None.
Proof.
  induction l as [|p l IH]; [reflexivity|]. simpl.
  destruct (Z.eqb (BlogPost.id p) post_id) eqn:Heq; simpl; [exact IH|].
  now rewrite Heq.
Qed.

(** X13. When the first user deletes the id of a stored post, the request
    redirects to the home page, the user table is untouched, every post
    with that id is gone ([show_post] on the id then hands [None] to the
    template) and every other id shows the same post as before. *)
Theorem delete_post_then_show_post (post_id : Z) (w : World) :
  is_admin w ->
  (exists p, In p (blog_posts (db w)) /\ BlogPost.id p = post_id) ->
  let w' := snd (delete_post post_id w) in
  fst (delete_post post_id w) = Ok (Redirect "home")
  /\ users (db w') = users (db w)
  /\ show_post post_id w'
     = (Ok (RenderTemplate "post.html"
              [("post", VPost None); ("year", VInt year)]), w')
  /\ forall q, q <> post_id -> fst (show_post q w') = fst (show_post q w).
Proof.
  intros Hadmin [p0 [Hin Hid]] w'. subst w'.
  rewrite (delete_post_admin post_id w Hadmin).
  destruct (find (fun p => Z.eqb (BlogPost.id p) post_id) (blog_posts (db w)))
    as [p|] eqn:Hfind.
  - pose proof Hfind as Hp. apply find_some in Hp as [_ Hp].
    apply Z.eqb_eq in Hp.
    rewrite (delete_post_view_present post_id w p Hfind).
    cbn [fst snd db_session_delete_commit_post set_db db users blog_posts].
    rewrite Hp. repeat split.
    + rewrite show_post_eq. unfold set_db. cbn [db blog_posts].
      now rewrite find_filter_same.
    + intros q Hq. rewrite !show_post_eq. unfold set_db. cbn [fst db blog_posts].
      now rewrite find_filter_other.
  - apply (find_none _ _ Hfind) in Hin. rewrite Hid, Z.eqb_refl in Hin.
    discriminate.
Qed.

(** ** Registration, login and logout together *)

Lemma find_id_unique (l : list User.t) (u : User.t) :
  NoDup (map User.id l) -> In u l ->
  find (fun v => Z.eqb (User.id v) (User.id u)) l = Some u.
Proof.
  induction l as [|a l IH]; simpl; intros Hnd Hin; [destruct Hin|].
  inversion Hnd as [|? ? Ha Hl]; subst.
  destruct Hin as [-> | Hin]; [now rewrite Z.eqb_refl|].
  destruct (Z.eqb_spec (User.id a) (User.id u)) as [Heq|_]; [|now apply IH].
  exfalso. apply Ha. rewrite Heq. now apply in_map.
Qed.

Lemma identity_after_register (env : Env) (form : RegisterForm.t) (w : World) :
  RegisterForm.validate_on_submit form = true ->
  ~ email_taken (RegisterForm.email form) w ->
  exists u,
    identity (snd (register env form w)) = Authenticated u
    /\ User.id u = next_id (map User.id (users (db w)))
    /\ User.email u = RegisterForm.email form
    /\ User.password u
       = generate_password_hash env (RegisterForm.password form) "pbkdf2:sha256" 8
    /\ users (db (snd (register env form w))) = (users (db w) ++ [u])%list.
Proof.
  intros Hv Hfresh.
  rewrite (register_valid_fresh env form w Hv Hfresh). cbv zeta.
  eexists. unfold identity.
  cbn [snd db users session_user_id User.id User.email User.password].
  split; [|repeat split; reflexivity].
  rewrite find_app_last; [reflexivity| |].
  - intros y Hy. cbn [User.id]. apply Z.eqb_neq. intros Heq.
    apply (next_id_fresh (map User.id (users (db w)))).
    rewrite <- Heq. now apply in_map.
  - cbn [User.id]. apply Z.eqb_refl.
Qed.

(** X14. Register, log out, log in: after a valid registration under a
    fresh email and a logout, a login with the same email and password
    (and the same POST and CSRF status) redirects to the home page and the
    session is again that of the registered user. *)
Theorem register_logout_login (env : Env) (form : RegisterForm.t) (w : World) :
  RegisterForm.validate_on_submit form = true ->
  ~ email_taken (RegisterForm.email form) w ->
  let registered := snd (register env form w) in
  let logged_out := snd (logout registered) in
  let lform := {| LoginForm.meta := RegisterForm.meta form;
                  LoginForm.email := RegisterForm.email form;
                  LoginForm.password := RegisterForm.password form |} in
  identity logged_out = AnonymousUserMixin
  /\ fst (login lform logged_out) = Ok (Redirect "home")
  /\ identity (snd (login lform logged_out)) = identity registered
  /\ exists u, identity registered = Authenticated u.
Proof.
  intros Hv Hfresh registered logged_out lform.
  destruct (identity_after_register env form w Hv Hfresh)
    as [u [Hid [Hu [Hemail [Hpw Hus]]]]].
  fold registered in Hid, Hus.
  assert (Hlv : LoginForm.validate_on_submit lform = true).
  { revert Hv. unfold RegisterForm.validate_on_submit, RegisterForm.validate,
      LoginForm.validate_on_submit, LoginForm.validate,
      RegisterForm.email_validators, RegisterForm.password_validators,
      LoginForm.email_validators, LoginForm.password_validators,
      Validators.run_validation_chain. simpl.
    rewrite !andb_true_iff. intros [Hs [[[Hc _] [He _]] [Hp _]]].
    now rewrite Hs, Hc, He, Hp. }
  assert (Hdb : db logged_out = db registered) by reflexivity.
  assert (Hfind : find (fun v => String.eqb (User.email v) (LoginForm.email lform))
                       (users (db logged_out)) = Some u).
  { rewrite Hdb, Hus. apply find_app_last.
    - intros y Hy. apply String.eqb_neq. intros Heq. apply Hfresh. now exists y.
    - cbn [LoginForm.email lform]. rewrite Hemail. apply String.eqb_refl. }
  assert (Hcheck : check_password_hash (User.password u) (LoginForm.password lform) = true).
  { rewrite Hpw. apply check_generate_password_hash. }
  rewrite (login_valid_verified lform logged_out u Hlv Hfind Hcheck).
  split; [reflexivity|]. split; [reflexivity|]. split; [|now exists u].
  rewrite Hid. unfold identity.
  cbn [snd login_user session_user_id db]. rewrite Hdb, Hus.
  rewrite find_app_last; [reflexivity| |].
  - intros y Hy. apply Z.eqb_neq. intros Heq.
    apply (next_id_fresh (map User.id (users (db w)))).
    rewrite <- Hu, <- Heq. now apply in_map.
  - apply Z.eqb_refl.
Qed.

(** X15. When no two stored users share an id, a login that validates
    and verifies makes the user found under the email the identity of the
    session, and leaves the database and the flashed messages alone. *)
Theorem login_sets_identity (form : LoginForm.t) (w : World) (u : User.t) :
  NoDup (map User.id (users (db w))) ->
  LoginForm.validate_on_submit form = true ->
  find (fun v => String.eqb (User.email v) (LoginForm.email form)) (users (db w)) = Some u ->
  check_password_hash (User.password u) (LoginForm.password form) = true ->
  identity (snd (login form w)) = Authenticated u
  /\ db (snd (login form w)) = db w
  /\ flashes (snd (login form w)) = flashes w.
Proof.
  intros Hnd Hv Hfind Hcheck.
  rewrite (login_valid_verified form w u Hv Hfind Hcheck).
  split; [|split; reflexivity].
  unfold identity. cbn [snd login_user session_user_id db].
  apply find_some in Hfind as [Hin _]. now rewrite find_id_unique.
Qed.

(** X16. After [logout] the request is anonymous whoever was logged in,
    the database is as before, and every guarded handler then answers
    403 without running. *)
Theorem logout_then_forbidden (w : World) :
  fst (logout w) = Ok (Redirect "home")
  /\ identity (snd (logout w)) = AnonymousUserMixin
  /\ db (snd (logout w)) = db w
  /\ forall (A : Type) (function : A -> M Response) (args : A),
       admin_only function args (snd (logout w))
       = (Raise (HTTPException 403), snd (logout w)).
Proof.
  split; [reflexivity|]. split; [reflexivity|]. split; [reflexivity|].
  intros A function args. apply admin_only_forbidden. now left.
Qed.

(** X17. Who becomes the first user.  A valid registration under a fresh
    email into an empty user table gives the new user id 1, so the guard
    lets that user through; once a user with a positive id is stored, a
    newly registered user gets another id than 1 and both guarded routes
    answer 403 to that user, leaving the world alone. *)
Theorem register_admin_only_when_first
  (env : Env) (form : RegisterForm.t) (w : World) :
  RegisterForm.validate_on_submit form = true ->
  ~ email_taken (RegisterForm.email form) w ->
  let w' := snd (register env form w) in
  (users (db w) = [] -> is_admin w')
  /\ ((exists a, In a (users (db w)) /\ (1 <= User.id a)%Z) ->
      ~ is_admin w'
      /\ (forall env' pform, new_post env' pform w' = (Raise (HTTPException 403), w'))
      /\ (forall post_id, delete_post post_id w' = (Raise (HTTPException 403), w'))).
Proof.
  intros Hv Hfresh w'.
  destruct (identity_after_register env form w Hv Hfresh)
    as [u [Hid [Hu _]]]. fold w' in Hid.
  split.
  - intros Hempty. exists u. split; [assumption|]. now rewrite Hu, Hempty.
  - intros [a [Hin Ha]].
    assert (Hne : User.id u <> 1%Z).
    { rewrite Hu.
      pose proof (next_id_above (map User.id (users (db w))) (User.id a)
                    (in_map User.id _ _ Hin)). lia. }
    assert (Hforbid : identity w' = AnonymousUserMixin
                      \/ (exists v, identity w' = Authenticated v /\ User.id v <> 1%Z)).
    { right. now exists u. }
    split; [|split].
    + intros [v [Hv' Hv1]]. congruence.
    + intros env' pform. unfold new_post. now apply admin_only_forbidden.
    + intros post_id. unfold delete_post. now apply admin_only_forbidden.
Qed.

(** X18. A login that validates but fails: when no stored user has the
    email, or when the stored credential is the hash of a password whose
    digest under the stored salt differs from that of the attempt, the
    login page is shown again with the matching message flashed, and
    nothing else in the world changes. *)
Theorem login_failure_messages (form : LoginForm.t) (w : World) :
  LoginForm.validate_on_submit form = true ->
  let page := RenderTemplate "login.html"
                [("year", VInt year); ("form", VLoginForm form)] in
  (~ email_taken (LoginForm.email form) w ->
   login form w = (Ok page, snd (flash "There is no account for that user" w)))
  /\ (forall u env password,
        find (fun v => String.eqb (User.email v) (LoginForm.email form))
             (users (db w)) = Some u ->
        User.password u = generate_password_hash env password "pbkdf2:sha256" 8 ->
        pbkdf2_hex "pbkdf2:sha256:600000" (Werkzeug.gen_salt env 8)
                   (LoginForm.password form)
        <> pbkdf2_hex "pbkdf2:sha256:600000" (Werkzeug.gen_salt env 8) password ->
        login form w = (Ok page, snd (flash "Incorrect password. Try again" w))).
Proof.
  intros Hv page. split.
  - intros Hfresh. unfold login. rewrite Hv.
    unfold bind, User_query_filter_by_email_first.
    now rewrite (find_email_none _ _ Hfresh).
  - intros u env password Hfind Hpw Hdigest. unfold login. rewrite Hv.
    unfold bind, User_query_filter_by_email_first. rewrite Hfind, Hpw.
    rewrite generate_password_hash_eq.
    unfold check_password_hash, Werkzeug.check_password_hash.
    change ("pbkdf2:sha256:600000" ++ "$" ++ Werkzeug.gen_salt env 8 ++ "$" ++
            pbkdf2_hex "pbkdf2:sha256:600000" (Werkzeug.gen_salt env 8) password)
      with ("pbkdf2:sha256:600000" ++
            String "$" (Werkzeug.gen_salt env 8 ++
            String "$" (pbkdf2_hex "pbkdf2:sha256:600000"
                                   (Werkzeug.gen_salt env 8) password))).
    rewrite split3_join by (reflexivity || apply gen_salt_no_dollar).
    unfold Werkzeug._hash_internal. cbn [fst String.eqb Ascii.eqb Bool.eqb].
    apply String.eqb_neq in Hdigest. now rewrite Hdigest.
Qed.

(** ** The validators of the forms *)

Lemma truthy_length (s : string) : Str.truthy s = true <-> 0 < String.length s.
Proof. destruct s; simpl; split; intros H; try discriminate; lia. Qed.

Lemma length_list_ascii_of_string (s : string) :
  List.length (list_ascii_of_string s) = String.length s.
Proof. induction s as [|c s IH]; simpl; [reflexivity | now rewrite IH]. Qed.

Lemma truthy_reverse (s : string) : Str.truthy (Str.reverse s) = Str.truthy s.
Proof.
  apply eq_true_iff_eq. rewrite !truthy_length. unfold Str.reverse.
  now rewrite length_string_of_list_ascii, length_rev, length_list_ascii_of_string.
Qed.

Lemma has_text_reverse (s : string) : has_text (Str.reverse s) <-> has_text s.
Proof.
  unfold has_text, Str.reverse. rewrite list_ascii_of_string_of_list_ascii.
  split; intros [c [Hin Hc]]; exists c; (split; [|assumption]).
  - now apply in_rev.
  - now apply in_rev in Hin.
Qed.

Lemma has_text_cons (c : ascii) (s : string) :
  has_text (String c s) <-> Str.isspace c = false \/ has_text s.
Proof.
  unfold has_text. simpl. split.
  - intros [d [[<- | Hin] Hd]]; [now left | right; now exists d].
  - intros [Hc | [d [Hin Hd]]]; [exists c | exists d]; auto.
Qed.

Lemma has_text_lstrip (s : string) : has_text (Str.lstrip s) <-> has_text s.
Proof.
  induction s as [|c s IH]; [reflexivity|]. simpl.
  destruct (Str.isspace c) eqn:Hc; [|reflexivity].
  rewrite IH, has_text_cons, Hc. split; [now right|].
  intros [H|H]; [discriminate | assumption].
Qed.

Lemma truthy_lstrip (s : string) : Str.truthy (Str.lstrip s) = true <-> has_text s.
Proof.
  induction s as [|c s IH]; simpl.
  - split; [discriminate | intros [c [[] _]]].
  - rewrite has_text_cons. destruct (Str.isspace c) eqn:Hc.
    + rewrite IH. split; [now right|]. intros [H|H]; [discriminate | assumption].
    + simpl. split; [now left | reflexivity].
Qed.

Lemma DataRequired_iff (data : string) :
  Validators.DataRequired data = true <-> has_text data.
Proof.
  unfold Validators.DataRequired, Str.strip, Str.rstrip.
  rewrite andb_true_iff, truthy_reverse, truthy_lstrip, has_text_reverse,
    has_text_lstrip.
  split; [now intros [_ H]|]. intros H. split; [|assumption].
  destruct H as [c [Hin _]]. now destruct data.
Qed.

Lemma chain_DataRequired (data : string) :
  Validators.run_validation_chain [Validators.DataRequired] data = true
  <-> has_text data.
Proof.
  unfold Validators.run_validation_chain. simpl.
  now rewrite andb_true_r, DataRequired_iff.
Qed.

(** X19. [RegisterForm] validates exactly the submissions that are a POST
    with a valid CSRF token, whose name, email and password each contain a
    character that is not white space, and whose password has 7 to 25
    characters; the email needs no further shape. *)
Theorem RegisterForm_validate_on_submit_iff (form : RegisterForm.t) :
  RegisterForm.validate_on_submit form = true <->
  is_submitted (RegisterForm.meta form) = true
  /\ csrf_valid (RegisterForm.meta form) = true
  /\ has_text (RegisterForm.name form)
  /\ has_text (RegisterForm.email form)
  /\ has_text (RegisterForm.password form)
  /\ 7 <= String.length (RegisterForm.password form) <= 25.
Proof.
  unfold RegisterForm.validate_on_submit, RegisterForm.validate,
    RegisterForm.name_validators, RegisterForm.email_validators,
    RegisterForm.password_validators.
  rewrite !andb_true_iff, !chain_DataRequired.
  unfold Validators.run_validation_chain. simpl.
  rewrite andb_true_r, andb_true_iff, DataRequired_iff, Length_spec.
  split.
  - intros [Hs [[[Hc Hn] He] [Hp Hl]]]. now repeat split.
  - intros [Hs [Hc [Hn [He [Hp Hl]]]]]. now repeat split.
Qed.

(** X20. [LoginForm] validates exactly the submissions that are a POST
    with a valid CSRF token and whose email and password each contain a
    character that is not white space; no length is asked of the
    password. *)
Theorem LoginForm_validate_on_submit_iff (form : LoginForm.t) :
  LoginForm.validate_on_submit form = true <->
  is_submitted (LoginForm.meta form) = true
  /\ csrf_valid (LoginForm.meta form) = true
  /\ has_text (LoginForm.email form)
  /\ has_text (LoginForm.password form).
Proof.
  unfold LoginForm.validate_on_submit, LoginForm.validate,
    LoginForm.email_validators, LoginForm.password_validators.
  rewrite !andb_true_iff, !chain_DataRequired.
  split.
  - intros [Hs [[Hc He] Hp]]. now repeat split.
  - intros [Hs [Hc [He Hp]]]. now repeat split.
Qed.

Lemma valid_choice_iff (choices : list string) (data : string) :
  Validators.valid_choice choices data = true <-> In data choices.
Proof.
  unfold Validators.valid_choice. rewrite existsb_exists. split.
  - intros [c [Hin Heq]]. apply String.eqb_eq in Heq. now subst.
  - intros Hin. exists data. split; [assumption | apply String.eqb_refl].
Qed.

(** X21. [CreatePostForm] validates exactly the submissions that are a
    POST with a valid CSRF token, whose title, subtitle, image URL and
    body each contain a character that is not white space, whose genre is
    one of "Tech", "Education", "Entertainment" and "Random Thoughts", and
    whose image URL passes the URL validator. *)
Theorem CreatePostForm_validate_on_submit_iff (form : CreatePostForm.t) :
  CreatePostForm.validate_on_submit URL form = true <->
  is_submitted (CreatePostForm.meta form) = true
  /\ csrf_valid (CreatePostForm.meta form) = true
  /\ has_text (CreatePostForm.title form)
  /\ has_text (CreatePostForm.subtitle form)
  /\ In (CreatePostForm.genre form)
        ["Tech"; "Education"; "Entertainment"; "Random Thoughts"]
  /\ has_text (CreatePostForm.img_url form)
  /\ URL (CreatePostForm.img_url form) = true
  /\ has_text (CreatePostForm.body form).
Proof.
  unfold CreatePostForm.validate_on_submit, CreatePostForm.validate,
    CreatePostForm.title_validators, CreatePostForm.subtitle_validators,
    CreatePostForm.genre_validators, CreatePostForm.body_validators,
    CreatePostForm.img_url_validators.
  rewrite !andb_true_iff, !chain_DataRequired, valid_choice_iff.
  unfold Validators.run_validation_chain. simpl.
  rewrite andb_true_r, andb_true_iff, DataRequired_iff.
  unfold CreatePostForm.genre_choices.
  split.
  - intros [Hs [[[[[Hc Ht] Hsub] [Hg _]] [Hi Hu]] Hb]]. now repeat split.
  - intros [Hs [Hc [Ht [Hsub [Hg [Hi [Hu Hb]]]]]]].
    repeat split; try assumption.
    destruct Hg as [<- | [<- | [<- | [<- | []]]]];
      apply DataRequired_iff; reflexivity.
Qed.

(** ** The date of a post, among the valid days *)

(** X22. The date a post is stamped with: for a calendar day with a
    four-digit year the string has exactly 10 characters, and two such
    days with the same string are the same day. *)
Theorem strftime_mdY_valid_date (d1 d2 : datetime) :
  valid_date d1 -> valid_date d2 ->
  String.length (strftime_mdY d1) = 10
  /\ (strftime_mdY d1 = strftime_mdY d2 -> d1 = d2).
Proof. apply strftime_mdY_day. Qed.

(** ** The home page *)

(** X23. The home page after a new post: whenever [new_post] stores a
    post, [home] on the resulting world returns the index page (not
    [None]) listing the posts stored before followed by the new one,
    shows the first user as logged in, and changes nothing. *)
Theorem new_post_then_home
  (env : Env) (form : CreatePostForm.t) (w w' : World) :
  new_post env form w = (Ok (Redirect "home"), w') ->
  exists (p : BlogPost.t) (u : User.t),
    BlogPost.title p = CreatePostForm.title form
    /\ User.id u = 1%Z
    /\ home w' =
       (Ok (Some (RenderTemplate "index.html"
                    [("year", VInt year); ("user", VUser (Authenticated u));
                     ("logged_in", VBool true);
                     ("posts", VPosts (blog_posts (db w) ++ [p]))])), w').
Proof.
  intros H.
  destruct (new_post_redirect_inv env form w w' _ H) as [Hadmin [Hv Hfresh]].
  rewrite (new_post_admin env form w Hadmin) in H.
  rewrite (new_post_view_valid_fresh env form w Hv Hfresh) in H.
  cbv zeta in H. injection H as <-.
  destruct Hadmin as [u [Hu Hid]].
  exists {| BlogPost.id := next_id (map BlogPost.id (blog_posts (db w)));
            BlogPost.title := CreatePostForm.title form;
            BlogPost.subtitle := CreatePostForm.subtitle form;
            BlogPost.date := strftime_mdY (today env);
            BlogPost.body := CreatePostForm.body form;
            BlogPost.img_url := CreatePostForm.img_url form;
            BlogPost.author_id := None;
            BlogPost.genre := CreatePostForm.genre form |}, u.
  split; [reflexivity|]. split; [assumption|].
  rewrite home_eq.
  replace (identity (set_db _ w)) with (identity w) by reflexivity.
  rewrite Hu. reflexivity.
Qed.
End Views.

(** * The properties on the sample data *)

(** C6. The first user submits a valid form whose title, "Hello", is the
    title of a stored post: [new_post] makes no check of its own, the
    commit raises [IntegrityError] out of the view and the client gets the
    page of an internal server error; the world is as before, with no
    message flashed, and the response is no redirect. *)
Theorem new_post_duplicate_title_raises :
  CreatePostForm.validate_on_submit Sample.URL Sample.post_hello = true
  /\ title_taken (CreatePostForm.title Sample.post_hello) Sample.admin_world_hello
  /\ new_post Sample.URL Sample.year Sample.env_a Sample.post_hello
              Sample.admin_world_hello
     = (Raise IntegrityError, Sample.admin_world_hello)
  /\ full_dispatch_request
       (new_post Sample.URL Sample.year Sample.env_a Sample.post_hello)
       Sample.admin_world_hello
     = (ErrorPage 500, Sample.admin_world_hello).
Proof.
  split; [reflexivity|]. split.
  - exists Sample.hello. split; [now left | reflexivity].
  - split; vm_compute; reflexivity.
Qed.

(** C2, as stated, fails.  Ann is registered; a login with her email and
    an empty password does not validate, so the credential is not
    verified, yet no message is flashed. *)
Lemma login_blank_password_counterexample :
  ~ login_sessions_follow_verification
      Sample.pbkdf2_hex Sample.year Sample.login_ann_blank Sample.registered_world.
Proof.
  intros [_ H]. destruct (H eq_refl) as [_ [message Hm]].
  vm_compute in Hm. discriminate Hm.
Qed.

(** C3, as stated, fails.  A registration with Ann's email and a password
    of 5 characters does not validate: the registration page is shown
    again instead of a redirect to the login page. *)
Lemma register_duplicate_short_password_counterexample :
  ~ register_duplicate_routes_to_login
      Sample.pbkdf2_hex Sample.year Sample.env_a
      Sample.register_dup_short Sample.registered_world.
Proof.
  intros H. destruct H as [_ [Hr _]].
  - exists Sample.ann. split; [now left | reflexivity].
  - vm_compute in Hr. discriminate Hr.
Qed.

Lemma admin_only_guard_witness :
  (identity Sample.bob_world = AnonymousUserMixin
   \/ (exists u, identity Sample.bob_world = Authenticated u /\ User.id u <> 1%Z))
  /\ delete_post 1 Sample.bob_world = (Raise (HTTPException 403), Sample.bob_world)
  /\ (exists u, identity Sample.admin_world_hello = Authenticated u /\ User.id u = 1%Z)
  /\ delete_post 1 Sample.admin_world_hello
     = delete_post_view 1 Sample.admin_world_hello.
Proof.
  assert (Hbob : identity Sample.bob_world = AnonymousUserMixin
                 \/ (exists u, identity Sample.bob_world = Authenticated u
                               /\ User.id u <> 1%Z)).
  { right. exists Sample.bob. split; [reflexivity | simpl; lia]. }
  assert (Hann : exists u, identity Sample.admin_world_hello = Authenticated u
                           /\ User.id u = 1%Z).
  { exists Sample.ann. split; reflexivity. }
  split; [exact Hbob|]. split; [|split; [exact Hann|]].
  - exact (proj1 (proj1 (admin_only_guard Sample.URL Sample.year Sample.bob_world)
                    Hbob Z delete_post_view 1%Z)).
  - exact (proj2 (proj2 (admin_only_guard Sample.URL Sample.year
                           Sample.admin_world_hello) Hann) 1%Z).
Defined.

Lemma login_session_iff_verified_witness :
  LoginForm.validate_on_submit Sample.login_ann = true
  /\ login_sessions_follow_verification
       Sample.pbkdf2_hex Sample.year Sample.login_ann Sample.registered_world
  /\ credential_verified Sample.pbkdf2_hex "a@x.com" "secret12"
       Sample.registered_world = true
  /\ (exists u,
        find (fun v => String.eqb (User.email v) "a@x.com")
             (users (db Sample.registered_world)) = Some u
        /\ session_user_id
             (snd (login Sample.pbkdf2_hex Sample.year Sample.login_ann
                         Sample.registered_world))
           = Some (User.id u)
        /\ fst (login Sample.pbkdf2_hex Sample.year Sample.login_ann
                      Sample.registered_world)
           = Ok (Redirect "home"))
  /\ LoginForm.validate_on_submit Sample.login_ann_blank = false
  /\ flashes (snd (login Sample.pbkdf2_hex Sample.year Sample.login_ann_blank
                     Sample.registered_world))
     = flashes Sample.registered_world.
Proof.
  pose proof (login_session_iff_verified Sample.pbkdf2_hex Sample.year
                Sample.login_ann Sample.registered_world) as [Hvalid _].
  pose proof (login_session_iff_verified Sample.pbkdf2_hex Sample.year
                Sample.login_ann_blank Sample.registered_world) as [_ Hinvalid].
  destruct (Hvalid eq_refl) as [Hiff [Hverified _]].
  destruct (Hinvalid eq_refl) as [_ [_ [Hflashes _]]].
  split; [reflexivity|]. split; [exact Hiff|]. split; [reflexivity|].
  split; [exact (Hverified eq_refl)|]. split; [reflexivity | exact Hflashes].
Defined.

Lemma register_duplicate_email_witness :
  email_taken (RegisterForm.email Sample.register_dup) Sample.registered_world
  /\ RegisterForm.validate_on_submit Sample.register_dup = true
  /\ users (db (snd (register Sample.pbkdf2_hex Sample.year Sample.env_a
                       Sample.register_dup Sample.registered_world)))
     = users (db Sample.registered_world)
  /\ fst (register Sample.pbkdf2_hex Sample.year Sample.env_a
            Sample.register_dup Sample.registered_world)
     = Ok (Redirect "login").
Proof.
  assert (Htaken : email_taken (RegisterForm.email Sample.register_dup)
                               Sample.registered_world).
  { exists Sample.ann. split; [now left | reflexivity]. }
  destruct (register_duplicate_email Sample.pbkdf2_hex Sample.year Sample.env_a
              Sample.register_dup Sample.registered_world Htaken)
    as [Husers Hvalid].
  destruct (Hvalid eq_refl) as [Hresponse _].
  repeat split; assumption.
Defined.

Lemma register_fresh_email_witness :
  RegisterForm.validate_on_submit Sample.register_carl = true
  /\ ~ email_taken (RegisterForm.email Sample.register_carl) Sample.registered_world
  /\ exists u : User.t,
       users (db (snd (register Sample.pbkdf2_hex Sample.year Sample.env_a
                         Sample.register_carl Sample.registered_world)))
       = [Sample.ann; Sample.bob; u]
       /\ User.password u <> "opensesame"
       /\ identity (snd (register Sample.pbkdf2_hex Sample.year Sample.env_a
                           Sample.register_carl Sample.registered_world))
          = Authenticated u.
Proof.
  assert (Hfresh : ~ email_taken (RegisterForm.email Sample.register_carl)
                                 Sample.registered_world).
  { intros [u [[<- | [<- | []]] Heq]]; discriminate Heq. }
  split; [reflexivity|]. split; [exact Hfresh|].
  destruct (register_fresh_email Sample.pbkdf2_hex Sample.year Sample.env_a
              Sample.register_carl Sample.registered_world eq_refl Hfresh)
    as [u [_ [Husers [_ [_ [_ [_ [Hraw [_ [_ Hid]]]]]]]]]].
  exists u. repeat split; assumption.
Defined.




Lemma register_password_length_witness :
  (String.length (RegisterForm.password Sample.register_dup_short) < 7
   \/ 25 < String.length (RegisterForm.password Sample.register_dup_short))
  /\ snd (register Sample.pbkdf2_hex Sample.year Sample.env_a
            Sample.register_dup_short Sample.registered_world)
     = Sample.registered_world
  /\ snd (register Sample.pbkdf2_hex Sample.year Sample.env_a
            Sample.register_carl Sample.registered_world)
     <> Sample.registered_world
  /\ 7 <= String.length (RegisterForm.password Sample.register_carl) <= 25.
Proof.
  assert (Hshort : String.length (RegisterForm.password Sample.register_dup_short) < 7
                   \/ 25 < String.length (RegisterForm.password Sample.register_dup_short))
    by (left; simpl; lia).
  assert (Hchanged : snd (register Sample.pbkdf2_hex Sample.year Sample.env_a
                            Sample.register_carl Sample.registered_world)
                     <> Sample.registered_world)
    by (vm_compute; discriminate).
  split; [exact Hshort|]. split; [|split; [exact Hchanged|]].
  - exact (proj1 (proj2 (proj1 (register_password_length Sample.pbkdf2_hex Sample.year
                                  Sample.env_a Sample.register_dup_short
                                  Sample.registered_world) Hshort))).
  - exact (proj2 (register_password_length Sample.pbkdf2_hex Sample.year
                    Sample.env_a Sample.register_carl Sample.registered_world)
                 Hchanged).
Defined.

(** * The further properties on the sample data *)

Lemma wsgi_app_unique_keys_witness :
  unique_keys Sample.registered_world
  /\ unique_keys
       (snd (wsgi_app Sample.pbkdf2_hex Sample.URL Sample.year
               (Register Sample.env_a Sample.register_carl)
               Sample.registered_world)).
Proof.
  assert (H : unique_keys Sample.registered_world).
  { unfold unique_keys; simpl.
    repeat split; repeat constructor; simpl; intuition discriminate. }
  split; [exact H|].
  exact (wsgi_app_unique_keys Sample.pbkdf2_hex Sample.URL Sample.year
           (Register Sample.env_a Sample.register_carl)
           Sample.registered_world H).
Defined.

Lemma wsgi_app_posts_admin_only_witness :
  ~ is_admin Sample.bob_world
  /\ blog_posts (db (snd (wsgi_app Sample.pbkdf2_hex Sample.URL Sample.year
                            (DeletePost 1) Sample.bob_world)))
     = blog_posts (db Sample.bob_world).
Proof.
  assert (H : ~ is_admin Sample.bob_world).
  { intros [u [Hu H1]]. vm_compute in Hu. injection Hu as <-. discriminate H1. }
  split; [exact H|].
  exact (wsgi_app_posts_admin_only Sample.pbkdf2_hex Sample.URL Sample.year
           (DeletePost 1) Sample.bob_world H).
Defined.

Lemma reachable_admin_is_first_user_witness :
  reachable Sample.pbkdf2_hex Sample.URL Sample.year
    (snd (wsgi_app Sample.pbkdf2_hex Sample.URL Sample.year
            (Register Sample.env_a Sample.register_carl) initial_world))
  /\ identity (snd (wsgi_app Sample.pbkdf2_hex Sample.URL Sample.year
                      (Register Sample.env_a Sample.register_carl) initial_world))
     = Authenticated Sample.carl_first
  /\ (User.id Sample.carl_first = 1%Z
      <-> hd_error (users (db (snd (wsgi_app Sample.pbkdf2_hex Sample.URL Sample.year
                                      (Register Sample.env_a Sample.register_carl)
                                      initial_world))))
          = Some Sample.carl_first).
Proof.
  assert (Hr : reachable Sample.pbkdf2_hex Sample.URL Sample.year
                 (snd (wsgi_app Sample.pbkdf2_hex Sample.URL Sample.year
                         (Register Sample.env_a Sample.register_carl) initial_world)))
    by (apply reachable_request, reachable_initial).
  split; [exact Hr|]. split; [reflexivity|].
  exact (reachable_admin_is_first_user Sample.pbkdf2_hex Sample.URL Sample.year
           _ Sample.carl_first Hr eq_refl).
Defined.

Lemma reachable_session_resolves_witness :
  reachable Sample.pbkdf2_hex Sample.URL Sample.year
    (snd (wsgi_app Sample.pbkdf2_hex Sample.URL Sample.year Logout
            (snd (wsgi_app Sample.pbkdf2_hex Sample.URL Sample.year
                    (Register Sample.env_a Sample.register_carl) initial_world))))
  /\ (identity
        (snd (wsgi_app Sample.pbkdf2_hex Sample.URL Sample.year Logout
                (snd (wsgi_app Sample.pbkdf2_hex Sample.URL Sample.year
                        (Register Sample.env_a Sample.register_carl) initial_world))))
      = AnonymousUserMixin
      <-> session_user_id
            (snd (wsgi_app Sample.pbkdf2_hex Sample.URL Sample.year Logout
                    (snd (wsgi_app Sample.pbkdf2_hex Sample.URL Sample.year
                            (Register Sample.env_a Sample.register_carl)
                            initial_world))))
          = None).
Proof.
  assert (Hr : reachable Sample.pbkdf2_hex Sample.URL Sample.year
                 (snd (wsgi_app Sample.pbkdf2_hex Sample.URL Sample.year Logout
                         (snd (wsgi_app Sample.pbkdf2_hex Sample.URL Sample.year
                                 (Register Sample.env_a Sample.register_carl)
                                 initial_world)))))
    by (apply reachable_request, reachable_request, reachable_initial).
  split; [exact Hr|].
  exact (reachable_session_resolves Sample.pbkdf2_hex Sample.URL Sample.year _ Hr).
Defined.

Lemma reachable_credentials_hashed_witness :
  reachable Sample.pbkdf2_hex Sample.URL Sample.year
    (snd (wsgi_app Sample.pbkdf2_hex Sample.URL Sample.year
            (Register Sample.env_a Sample.register_carl) initial_world))
  /\ In Sample.carl_first
        (users (db (snd (wsgi_app Sample.pbkdf2_hex Sample.URL Sample.year
                           (Register Sample.env_a Sample.register_carl)
                           initial_world))))
  /\ 30 <= String.length (User.password Sample.carl_first)
  /\ exists password,
       7 <= String.length password <= 25
       /\ check_password_hash Sample.pbkdf2_hex
            (User.password Sample.carl_first) password = true.
Proof.
  assert (Hr : reachable Sample.pbkdf2_hex Sample.URL Sample.year
                 (snd (wsgi_app Sample.pbkdf2_hex Sample.URL Sample.year
                         (Register Sample.env_a Sample.register_carl) initial_world)))
    by (apply reachable_request, reachable_initial).
  assert (Hin : In Sample.carl_first
                   (users (db (snd (wsgi_app Sample.pbkdf2_hex Sample.URL Sample.year
                                      (Register Sample.env_a Sample.register_carl)
                                      initial_world)))))
    by (left; reflexivity).
  split; [exact Hr|]. split; [exact Hin|].
  exact (reachable_credentials_hashed Sample.pbkdf2_hex Sample.URL Sample.year
           _ Sample.carl_first Hr Hin).
Defined.

Lemma reachable_genres_valid_witness :
  reachable Sample.pbkdf2_hex Sample.URL Sample.year
    (snd (wsgi_app Sample.pbkdf2_hex Sample.URL Sample.year
            (NewPost Sample.env_a Sample.post_hello)
            (snd (wsgi_app Sample.pbkdf2_hex Sample.URL Sample.year
                    (Register Sample.env_a Sample.register_carl) initial_world))))
  /\ ~ In "Technology" CreatePostForm.genre_choices
  /\ BlogPost_query_filter_by_genre "Technology"
       (snd (wsgi_app Sample.pbkdf2_hex Sample.URL Sample.year
               (NewPost Sample.env_a Sample.post_hello)
               (snd (wsgi_app Sample.pbkdf2_hex Sample.URL Sample.year
                       (Register Sample.env_a Sample.register_carl) initial_world))))
     = (Ok [],
        snd (wsgi_app Sample.pbkdf2_hex Sample.URL Sample.year
               (NewPost Sample.env_a Sample.post_hello)
               (snd (wsgi_app Sample.pbkdf2_hex Sample.URL Sample.year
                       (Register Sample.env_a Sample.register_carl) initial_world)))).
Proof.
  assert (Hr : reachable Sample.pbkdf2_hex Sample.URL Sample.year
                 (snd (wsgi_app Sample.pbkdf2_hex Sample.URL Sample.year
                         (NewPost Sample.env_a Sample.post_hello)
                         (snd (wsgi_app Sample.pbkdf2_hex Sample.URL Sample.year
                                 (Register Sample.env_a Sample.register_carl)
                                 initial_world)))))
    by (apply reachable_request, reachable_request, reachable_initial).
  assert (Hout : ~ In "Technology" CreatePostForm.genre_choices)
    by (simpl; intuition discriminate).
  split; [exact Hr|]. split; [exact Hout|].
  exact (proj2 (reachable_genres_valid Sample.pbkdf2_hex Sample.URL Sample.year
                  _ "Technology" Hr) Hout).
Defined.

Lemma post_category_spec_witness :
  In "Tech" ["Tech"; "Technology"; "Education"; "Entertainment"; "Random Thoughts"]
  /\ (exists filepath,
        fst (post_category Sample.year "Tech" Sample.admin_world_hello)
        = Ok (RenderTemplate "post_category.html"
                [("posts", VPosts [Sample.hello]);
                 ("category", VStr "Technology");
                 ("user", VUser (Authenticated Sample.ann));
                 ("filepath", VStr filepath);
                 ("year", VInt Sample.year)]))
  /\ ~ In "Sports" ["Tech"; "Technology"; "Education"; "Entertainment";
                    "Random Thoughts"]
  /\ post_category Sample.year "Sports" Sample.admin_world_hello
     = (Raise (KeyError "Sports"), Sample.admin_world_hello).
Proof.
  assert (Hin : In "Tech" ["Tech"; "Technology"; "Education"; "Entertainment";
                           "Random Thoughts"]) by (left; reflexivity).
  assert (Hout : ~ In "Sports" ["Tech"; "Technology"; "Education"; "Entertainment";
                                "Random Thoughts"])
    by (simpl; intuition discriminate).
  split; [exact Hin|]. split; [|split; [exact Hout|]].
  - destruct (proj1 (post_category_spec Sample.year "Tech" Sample.admin_world_hello) Hin)
      as [filepath [_ Hp]].
    exists filepath. rewrite Hp. reflexivity.
  - exact (proj2 (post_category_spec Sample.year "Sports" Sample.admin_world_hello) Hout).
Defined.

Lemma invalid_form_changes_nothing_witness :
  RegisterForm.validate_on_submit Sample.register_dup_short = false
  /\ LoginForm.validate_on_submit Sample.login_ann_blank = false
  /\ CreatePostForm.validate_on_submit Sample.URL Sample.post_form_get = false
  /\ snd (register Sample.pbkdf2_hex Sample.year Sample.env_a
            Sample.register_dup_short Sample.admin_world) = Sample.admin_world
  /\ snd (login Sample.pbkdf2_hex Sample.year Sample.login_ann_blank
            Sample.admin_world) = Sample.admin_world
  /\ snd (new_post Sample.URL Sample.year Sample.env_a Sample.post_form_get
            Sample.admin_world) = Sample.admin_world.
Proof.
  pose proof (invalid_form_changes_nothing Sample.pbkdf2_hex Sample.URL Sample.year
                Sample.env_a Sample.register_dup_short Sample.login_ann_blank
                Sample.post_form_get Sample.admin_world) as [Hr [Hl Hp]].
  split; [reflexivity|]. split; [reflexivity|]. split; [reflexivity|].
  split; [exact (Hr eq_refl)|]. split; [exact (Hl eq_refl) | exact (Hp eq_refl)].
Defined.

Lemma admin_only_for_admin_witness :
  is_admin Sample.admin_world
  /\ admin_only (fun _ : unit => raise AttributeError) tt Sample.admin_world
     = (Raise (HTTPException 403), Sample.admin_world).
Proof.
  assert (H : is_admin Sample.admin_world)
    by (exists Sample.ann; split; reflexivity).
  split; [exact H|].
  exact (admin_only_for_admin (fun _ : unit => raise AttributeError) tt
           Sample.admin_world H).
Defined.

Lemma delete_post_then_show_post_witness :
  is_admin Sample.admin_world_hello
  /\ (exists p, In p (blog_posts (db Sample.admin_world_hello))
                /\ BlogPost.id p = 1%Z)
  /\ show_post Sample.year 1 (snd (delete_post 1 Sample.admin_world_hello))
     = (Ok (RenderTemplate "post.html"
              [("post", VPost None); ("year", VInt Sample.year)]),
        snd (delete_post 1 Sample.admin_world_hello)).
Proof.
  assert (Ha : is_admin Sample.admin_world_hello)
    by (exists Sample.ann; split; reflexivity).
  assert (Hp : exists p, In p (blog_posts (db Sample.admin_world_hello))
                         /\ BlogPost.id p = 1%Z)
    by (exists Sample.hello; split; [left|]; reflexivity).
  split; [exact Ha|]. split; [exact Hp|].
  exact (proj1 (proj2 (proj2 (delete_post_then_show_post Sample.year 1
                                Sample.admin_world_hello Ha Hp)))).
Defined.

Lemma register_logout_login_witness :
  RegisterForm.validate_on_submit Sample.register_carl = true
  /\ ~ email_taken (RegisterForm.email Sample.register_carl) Sample.registered_world
  /\ fst (login Sample.pbkdf2_hex Sample.year
            {| LoginForm.meta := Sample.posted; LoginForm.email := "c@x.com";
               LoginForm.password := "opensesame" |}
            (snd (logout (snd (register Sample.pbkdf2_hex Sample.year Sample.env_a
                                 Sample.register_carl Sample.registered_world)))))
     = Ok (Redirect "home").
Proof.
  assert (Hfresh : ~ email_taken (RegisterForm.email Sample.register_carl)
                                 Sample.registered_world).
  { intros [u [[<- | [<- | []]] Heq]]; discriminate Heq. }
  split; [reflexivity|]. split; [exact Hfresh|].
  exact (proj1 (proj2 (register_logout_login Sample.pbkdf2_hex Sample.year
                         Sample.env_a Sample.register_carl
                         Sample.registered_world eq_refl Hfresh))).
Defined.

Lemma login_sets_identity_witness :
  NoDup (map User.id (users (db Sample.registered_world)))
  /\ LoginForm.validate_on_submit Sample.login_ann = true
  /\ find (fun v => String.eqb (User.email v) (LoginForm.email Sample.login_ann))
          (users (db Sample.registered_world)) = Some Sample.ann
  /\ check_password_hash Sample.pbkdf2_hex (User.password Sample.ann)
       (LoginForm.password Sample.login_ann) = true
  /\ identity (snd (login Sample.pbkdf2_hex Sample.year Sample.login_ann
                      Sample.registered_world))
     = Authenticated Sample.ann.
Proof.
  assert (Hnd : NoDup (map User.id (users (db Sample.registered_world)))).
  { simpl. repeat constructor; simpl; intuition discriminate. }
  split; [exact Hnd|]. split; [reflexivity|]. split; [reflexivity|].
  split; [reflexivity|].
  exact (proj1 (login_sets_identity Sample.pbkdf2_hex Sample.year Sample.login_ann
                  Sample.registered_world Sample.ann Hnd eq_refl eq_refl eq_refl)).
Defined.

Lemma register_admin_only_when_first_witness :
  RegisterForm.validate_on_submit Sample.register_carl = true
  /\ ~ email_taken (RegisterForm.email Sample.register_carl) initial_world
  /\ ~ email_taken (RegisterForm.email Sample.register_carl) Sample.registered_world
  /\ users (db initial_world) = []
  /\ is_admin (snd (register Sample.pbkdf2_hex Sample.year Sample.env_a
                      Sample.register_carl initial_world))
  /\ (exists a, In a (users (db Sample.registered_world)) /\ (1 <= User.id a)%Z)
  /\ delete_post 1 (snd (register Sample.pbkdf2_hex Sample.year Sample.env_a
                           Sample.register_carl Sample.registered_world))
     = (Raise (HTTPException 403),
        snd (register Sample.pbkdf2_hex Sample.year Sample.env_a
               Sample.register_carl Sample.registered_world)).
Proof.
  assert (Hfresh0 : ~ email_taken (RegisterForm.email Sample.register_carl)
                                  initial_world).
  { intros [u [[] _]]. }
  assert (Hfresh : ~ email_taken (RegisterForm.email Sample.register_carl)
                                 Sample.registered_world).
  { intros [u [[<- | [<- | []]] Heq]]; discriminate Heq. }
  assert (Hsome : exists a, In a (users (db Sample.registered_world))
                            /\ (1 <= User.id a)%Z).
  { exists Sample.ann. split; [now left | simpl; lia]. }
  split; [reflexivity|]. split; [exact Hfresh0|]. split; [exact Hfresh|].
  split; [reflexivity|]. split; [|split; [exact Hsome|]].
  - exact (proj1 (register_admin_only_when_first Sample.pbkdf2_hex Sample.URL
                    Sample.year Sample.env_a Sample.register_carl initial_world
                    eq_refl Hfresh0) eq_refl).
  - exact (proj2 (proj2 (proj2 (register_admin_only_when_first Sample.pbkdf2_hex
                                  Sample.URL Sample.year Sample.env_a
                                  Sample.register_carl Sample.registered_world
                                  eq_refl Hfresh) Hsome)) 1%Z).
Defined.

Lemma login_failure_messages_witness :
  LoginForm.validate_on_submit Sample.login_dave = true
  /\ ~ email_taken (LoginForm.email Sample.login_dave) Sample.registered_world
  /\ flashes (snd (login Sample.pbkdf2_hex Sample.year Sample.login_dave
                     Sample.registered_world))
     = ["There is no account for that user"]
  /\ LoginForm.validate_on_submit Sample.login_ann_wrong = true
  /\ User.password Sample.ann
     = generate_password_hash Sample.pbkdf2_hex Sample.env_a "secret12"
                              "pbkdf2:sha256" 8
  /\ flashes (snd (login Sample.pbkdf2_hex Sample.year Sample.login_ann_wrong
                     Sample.registered_world))
     = ["Incorrect password. Try again"].
Proof.
  assert (Hfresh : ~ email_taken (LoginForm.email Sample.login_dave)
                                 Sample.registered_world).
  { intros [u [[<- | [<- | []]] Heq]]; discriminate Heq. }
  assert (Hdigest :
    Sample.pbkdf2_hex "pbkdf2:sha256:600000" (Werkzeug.gen_salt Sample.env_a 8)
                      (LoginForm.password Sample.login_ann_wrong)
    <> Sample.pbkdf2_hex "pbkdf2:sha256:600000" (Werkzeug.gen_salt Sample.env_a 8)
                         "secret12")
    by (vm_compute; discriminate).
  split; [reflexivity|]. split; [exact Hfresh|]. split; [|split; [reflexivity|split;
    [reflexivity|]]].
  - rewrite (proj1 (login_failure_messages Sample.pbkdf2_hex Sample.year
                      Sample.login_dave Sample.registered_world eq_refl) Hfresh).
    reflexivity.
  - rewrite (proj2 (login_failure_messages Sample.pbkdf2_hex Sample.year
                      Sample.login_ann_wrong Sample.registered_world eq_refl)
               Sample.ann Sample.env_a "secret12" eq_refl eq_refl Hdigest).
    reflexivity.
Defined.

Lemma strftime_mdY_valid_date_witness :
  valid_date (today Sample.env_a)
  /\ valid_date Sample.new_year_eve
  /\ String.length (strftime_mdY (today Sample.env_a)) = 10
  /\ (strftime_mdY (today Sample.env_a) = strftime_mdY Sample.new_year_eve ->
      today Sample.env_a = Sample.new_year_eve).
Proof.
  assert (H1 : valid_date (today Sample.env_a))
    by (unfold valid_date; simpl; repeat split; lia || reflexivity).
  assert (H2 : valid_date Sample.new_year_eve)
    by (unfold valid_date; simpl; repeat split; lia || reflexivity).
  split; [exact H1|]. split; [exact H2|].
  exact (strftime_mdY_valid_date (today Sample.env_a) Sample.new_year_eve H1 H2).
Defined.

Lemma new_post_then_home_witness :
  new_post Sample.URL Sample.year Sample.env_a Sample.post_hello Sample.admin_world
  = (Ok (Redirect "home"),
     snd (new_post Sample.URL Sample.year Sample.env_a Sample.post_hello
                   Sample.admin_world))
  /\ exists (p : BlogPost.t) (u : User.t),
       BlogPost.title p = "Hello"
       /\ home Sample.year
            (snd (new_post Sample.URL Sample.year Sample.env_a Sample.post_hello
                           Sample.admin_world))
          = (Ok (Some (RenderTemplate "index.html"
                         [("year", VInt Sample.year);
                          ("user", VUser (Authenticated u));
                          ("logged_in", VBool true);
                          ("posts", VPosts [p])])),
             snd (new_post Sample.URL Sample.year Sample.env_a Sample.post_hello
                           Sample.admin_world)).
Proof.
  assert (Hposted :
    new_post Sample.URL Sample.year Sample.env_a Sample.post_hello Sample.admin_world
    = (Ok (Redirect "home"),
       snd (new_post Sample.URL Sample.year Sample.env_a Sample.post_hello
                     Sample.admin_world))) by reflexivity.
  split; [exact Hposted|].
  destruct (new_post_then_home Sample.URL Sample.year Sample.env_a
              Sample.post_hello Sample.admin_world _ Hposted)
    as [p [u [Htitle [_ Hhome]]]].
  exists p, u. split; [exact Htitle | exact Hhome].
Defined.

